(** * ChainOfCustody_demo.py: the evidence custody client

    A shallow embedding of [src/ChainOfCustody_demo.py]: the
    [ChainOfCustody] wrapper class, [upload_file_to_ipfs] and the console
    loop of [main_cli].  The ledger node, the deployed contract, the IPFS
    daemon, the file system and the web3 helper functions are external;
    they are an environment the program calls into.  Every remote call is
    recorded in a trace so that the order of calls can be stated. *)

From Stdlib Require Import ZArith QArith String Ascii List Lia.
From stdpp Require Import base option list strings gmap pretty sorting.

Local Open Scope Z_scope.
Local Open Scope string_scope.
Local Open Scope list_scope.

(** ** Python values, exceptions and results *)

Set Warnings "-register-all".

(** The dynamically typed values that cross the boundary with the
    libraries: JSON documents, decoded contract return values, console
    strings. *)
Inductive pyval : Type :=
| VNone
| VBool (b : bool)
| VInt (z : Z)
| VStr (s : string)
| VList (l : list pyval)
| VDict (d : list (string * pyval)).

(** A raised exception.  [Exc] is an instance of a class deriving from
    [Exception]; [BaseExc] one deriving from [BaseException] only
    (KeyboardInterrupt, SystemExit, GeneratorExit), which
    [except Exception] does not catch. *)
Inductive exn : Type :=
| Exc (cls msg : string)
| BaseExc (cls : string).

Definition is_Exception (e : exn) : bool :=
  match e with Exc _ _ => true | BaseExc _ => false end.

Inductive result (A : Type) : Type :=
| Ok (a : A)
| Raise (e : exn).
Arguments Ok {A} a.
Arguments Raise {A} e.

Definition EOFError : exn := Exc "EOFError" "EOF when reading a line".

(** ** Plain Python operations on values *)

(** [v[i]] for a literal non-negative index. *)
Definition subscript_int (v : pyval) (i : nat) : result pyval :=
  match v with
  | VList l =>
      match nth_error l i with
      | Some x => Ok x
      | None => Raise (Exc "IndexError" "list index out of range")
      end
  | VStr s =>
      match String.get i s with
      | Some c => Ok (VStr (String c EmptyString))
      | None => Raise (Exc "IndexError" "string index out of range")
      end
  | VDict _ => Raise (Exc "KeyError" "")
  | _ => Raise (Exc "TypeError" "object is not subscriptable")
  end.

Fixpoint assoc_get (k : string) (d : list (string * pyval)) : option pyval :=
  match d with
  | [] => None
  | (k', v) :: d' => if String.eqb k k' then Some v else assoc_get k d'
  end.

(** [v[k]] for a literal string key. *)
Definition subscript_str (v : pyval) (k : string) : result pyval :=
  match v with
  | VDict d =>
      match assoc_get k d with
      | Some x => Ok x
      | None => Raise (Exc "KeyError" k)
      end
  | VList _ => Raise (Exc "TypeError" "list indices must be integers or slices, not str")
  | VStr _ => Raise (Exc "TypeError" "string indices must be integers")
  | _ => Raise (Exc "TypeError" "object is not subscriptable")
  end.

(** [len(v)]. *)
Definition py_len (v : pyval) : result nat :=
  match v with
  | VList l => Ok (length l)
  | VStr s => Ok (String.length s)
  | VDict d => Ok (length d)
  | _ => Raise (Exc "TypeError" "object has no len()")
  end.

Fixpoint chars_of (s : string) : list pyval :=
  match s with
  | EmptyString => []
  | String c s' => VStr (String c EmptyString) :: chars_of s'
  end.

(** The elements a [for] loop over [v] visits. *)
Definition py_iter (v : pyval) : result (list pyval) :=
  match v with
  | VList l => Ok l
  | VStr s => Ok (chars_of s)
  | VDict d => Ok (map (fun kv => VStr (fst kv)) d)
  | _ => Raise (Exc "TypeError" "object is not iterable")
  end.

(** Truth value of [v] in a conditional expression. *)
Definition truthy (v : pyval) : bool :=
  match v with
  | VNone => false
  | VBool b => b
  | VInt z => negb (z =? 0)%Z
  | VStr s => negb (String.eqb s "")
  | VList l => match l with [] => false | _ => true end
  | VDict d => match d with [] => false | _ => true end
  end.

(** [v is None]. *)
Definition is_None (v : pyval) : bool :=
  match v with VNone => true | _ => false end.

(** Whitespace removed by [str.strip()], for characters of the ASCII
    range: tab, line feed, vertical tab, form feed, carriage return, the
    four separators 28 to 31 and the space. *)
Definition is_space (c : ascii) : bool :=
  let n := nat_of_ascii c in
  ((9 <=? n)%nat && (n <=? 13)%nat) || ((28 <=? n)%nat && (n <=? 32)%nat).

Fixpoint lstrip (s : string) : string :=
  match s with
  | EmptyString => EmptyString
  | String c s' => if is_space c then lstrip s' else s
  end.

Fixpoint rstrip (s : string) : string :=
  match s with
  | EmptyString => EmptyString
  | String c s' =>
      match rstrip s' with
      | EmptyString => if is_space c then EmptyString else String c EmptyString
      | r => String c r
      end
  end.

Definition strip (s : string) : string := rstrip (lstrip s).

(** ** The session object, receipts and the trace of remote calls *)

(** The contract object built by [web3.eth.contract(address=..., abi=...)]. *)
Record Contract : Type := mkContract {
  address : string;
  abi : pyval
}.

(** The fields [__init__] sets on [self]. *)
Record ChainOfCustody : Type := mkChainOfCustody {
  web3 : pyval;
  contract_address : string;
  contract_config : pyval;
  account : string;
  contract : Contract
}.

(** A bound contract function, [contract.functions.name(args)]. *)
Record ContractFunction : Type := mkContractFunction {
  fn_name : string;
  fn_args : list pyval
}.

(** The transaction dictionary handed to [transact]. *)
Record TxParams : Type := mkTxParams {
  tx_from : string;
  tx_nonce : Z
}.

Record Receipt : Type := mkReceipt {
  transactionHash : string;
  blockNumber : Z;
  status : Z
}.

(** One entry per call that leaves the process, in the order made. *)
Inductive Event : Type :=
| EvAccounts
| EvGetBalance (addr : string)
| EvGetTransactionCount (addr : string)
| EvTransact (c : Contract) (f : ContractFunction) (p : TxParams)
| EvWaitReceipt (tx : string)
| EvCall (c : Contract) (f : ContractFunction) (from : string)
| EvIpfsConnect
| EvIpfsAdd (path : string).

(** A printed line: the literal parts of an f-string and the values
    formatted into it. *)
Inductive piece : Type :=
| Lit (s : string)
| Fmt (v : pyval)
| FmtExn (e : exn).

(** ** The environment *)

(** Functions of the web3, json and datetime libraries and of the file
    system that the program calls and does not implement.
    [contract_error] is the check web3 makes when a contract object is
    built ([None]: accepted). *)
Record Library : Type := mkLibrary {
  toChecksumAddress : pyval -> result string;
  json_load_file : string -> result pyval;
  read_file : string -> result string;
  format_timestamp : pyval -> result string;
  contract_error : string -> pyval -> option exn
}.

(** The remote side.  [W] is the state of the outside world (ledger,
    storage daemon); each remote call may change it and may raise.
    [lookup_error] is the check made when a function is looked up by name
    in the functions of a contract object, [contract.functions.name], and
    [binding_error] the check made when the function found is bound to
    its arguments ([None]: accepted). *)
Record Env (W : Type) : Type := mkEnv {
  lib :> Library;
  lookup_error : Contract -> string -> option exn;
  binding_error : Contract -> ContractFunction -> option exn;
  eth_accounts : pyval -> W -> result pyval * W;
  eth_get_balance : pyval -> string -> W -> result Z * W;
  eth_get_transaction_count : pyval -> string -> W -> result Z * W;
  eth_transact : pyval -> Contract -> ContractFunction -> TxParams -> W -> result string * W;
  eth_wait_for_transaction_receipt : pyval -> string -> W -> result Receipt * W;
  eth_call : pyval -> Contract -> ContractFunction -> string -> W -> result pyval * W;
  ipfs_connect : W -> result unit * W;
  ipfs_add : string -> W -> result pyval * W
}.
Arguments lib {W} _.
Arguments lookup_error {W} _ _ _.
Arguments binding_error {W} _ _ _.
Arguments eth_accounts {W} _ _ _.
Arguments eth_get_balance {W} _ _ _ _.
Arguments eth_get_transaction_count {W} _ _ _ _.
Arguments eth_transact {W} _ _ _ _ _ _.
Arguments eth_wait_for_transaction_receipt {W} _ _ _ _.
Arguments eth_call {W} _ _ _ _ _ _.
Arguments ipfs_connect {W} _ _.
Arguments ipfs_add {W} _ _ _.

(** The error, if any, of getting the contract function [f] of [c]: that
    of looking its name up, or else that of binding it to its arguments. *)
Definition function_error {W} (env : Env W) (c : Contract) (f : ContractFunction)
  : option exn :=
  match lookup_error env c (fn_name f) with
  | Some e => Some e
  | None => binding_error env c f
  end.

(** Modelled from the spec: the decimal factor of a unit of the native
    currency, used by web3's [fromWei] (library code, not under src/).
    The factor of the ether is ten to the eighteenth. *)
Definition unit_factor (unit : string) : option positive :=
  if String.eqb unit "wei" then Some 1%positive
  else if String.eqb unit "gwei" then Some 1000000000%positive
  else if String.eqb unit "ether" then Some 1000000000000000000%positive
  else None.

(** Modelled from the spec: web3's [fromWei] (library code, not under
    src/) gives an amount in human-readable units: the amount in the
    smallest unit divided by the decimal factor of the unit asked for.
    Amounts are those of the 256-bit range. *)
Definition fromWei (number : Z) (unit : string) : result Q :=
  match unit_factor unit with
  | None => Raise (Exc "ValueError" "Unknown unit")
  | Some f =>
      if (number <? 0)%Z || (2 ^ 256 <=? number)%Z
      then Raise (Exc "ValueError" "value must be between 1 and 2**256 - 1")
      else Ok (Qmake number f)
  end.

(** ** The program state and its monad *)

Section Client.

Context {W : Type}.
Variable env : Env W.

(** [coc] is the one [ChainOfCustody] object of the process: methods read
    their [self] from it, and could assign to it. *)
Record State : Type := mkState {
  world : W;
  coc : ChainOfCustody;
  trace : list Event;
  stdin : list string;
  stdout : list (list piece)
}.

Definition M (A : Type) : Type := State -> result A * State.

Definition ret {A} (a : A) : M A := fun s => (Ok a, s).

Definition raise {A} (e : exn) : M A := fun s => (Raise e, s).

Definition bind {A B} (m : M A) (k : A -> M B) : M B :=
  fun s =>
    match m s with
    | (Ok a, s') => k a s'
    | (Raise e, s') => (Raise e, s')
    end.

Notation "x <- m ;; k" := (bind m (fun x => k))
  (at level 100, m at next level, right associativity).
Notation "m ;;; k" := (bind m (fun _ => k))
  (at level 100, right associativity).

(** [try: body except Exception as e: handler e].  What [body] did to the
    state before raising stays done. *)
Definition try_except {A} (body : M A) (handler : exn -> M A) : M A :=
  fun s =>
    match body s with
    | (Ok a, s') => (Ok a, s')
    | (Raise e, s') => if is_Exception e then handler e s' else (Raise e, s')
    end.

Definition lift {A} (r : result A) : M A := fun s => (r, s).

Definition get_self : M ChainOfCustody := fun s => (Ok (coc s), s).

Definition log (ev : Event) (s : State) : State :=
  mkState (world s) (coc s) (trace s ++ [ev]) (stdin s) (stdout s).

Definition set_world (w : W) (s : State) : State :=
  mkState w (coc s) (trace s) (stdin s) (stdout s).

(** A remote call: recorded, then answered by the environment. *)
Definition remote {A} (ev : Event) (h : W -> result A * W) : M A :=
  fun s =>
    let s1 := log ev s in
    let (r, w') := h (world s1) in
    (r, set_world w' s1).

Definition emit (line : list piece) (s : State) : State :=
  mkState (world s) (coc s) (trace s) (stdin s) (stdout s ++ [line]).

Definition print (line : list piece) : M unit := fun s => (Ok tt, emit line s).

(** [input(prompt)]: the prompt is written, then one line is taken from
    standard input; at end of input [EOFError] is raised. *)
Definition input (prompt : string) : M string :=
  fun s =>
    let s1 := emit [Lit prompt] s in
    match stdin s1 with
    | [] => (Raise EOFError, s1)
    | l :: rest => (Ok l, mkState (world s1) (coc s1) (trace s1) rest (stdout s1))
    end.

(** ** class ChainOfCustody *)

(** [self.contract.functions.name]: the function is looked up by name
    in the interface of the contract object. *)
Definition function_named (c : Contract) (name : string) : M unit :=
  match lookup_error env c name with
  | Some e => raise e
  | None => ret tt
  end.

(** The call [(args)] of the function found: the arguments are checked
    against the interface descriptor when the function is bound. *)
Definition bound_to (c : Contract) (name : string) (args : list pyval)
  : M ContractFunction :=
  let f := mkContractFunction name args in
  match binding_error env c f with
  | Some e => raise e
  | None => ret f
  end.

(** [self.contract.functions.name(args)] with arguments that are plain
    variables: the lookup, then the binding. *)
Definition functions (c : Contract) (name : string) (args : list pyval)
  : M ContractFunction :=
  function_named c name ;;;
  bound_to c name args.

Definition get_transaction_count (self : ChainOfCustody) : M Z :=
  remote (EvGetTransactionCount (account self))
         (eth_get_transaction_count env (web3 self) (account self)).

Definition transact (self : ChainOfCustody) (f : ContractFunction) (p : TxParams)
  : M string :=
  remote (EvTransact (contract self) f p)
         (eth_transact env (web3 self) (contract self) f p).

Definition wait_for_transaction_receipt (self : ChainOfCustody) (tx : string)
  : M Receipt :=
  remote (EvWaitReceipt tx) (eth_wait_for_transaction_receipt env (web3 self) tx).

Definition call (self : ChainOfCustody) (f : ContractFunction) : M pyval :=
  remote (EvCall (contract self) f (account self))
         (eth_call env (web3 self) (contract self) f (account self)).

Definition getAccounts : M pyval :=
  self <- get_self ;;
  remote EvAccounts (eth_accounts env (web3 self)).

Definition getBalance (account_addr : option pyval) : M Q :=
  let account_addr := default VNone account_addr in
  self <- get_self ;;
  checksumAddr <- (if is_None account_addr then ret (account self)
                   else lift (toChecksumAddress env account_addr)) ;;
  wei <- remote (EvGetBalance checksumAddr)
                (eth_get_balance env (web3 self) checksumAddr) ;;
  lift (fromWei wei "ether").

Definition registerEvidence (caseId evidenceId holderName description ipfsHash : pyval)
    (action : option pyval) : M Receipt :=
  let action := default (VStr "collected") action in
  self <- get_self ;;
  f <- functions (contract self) "registerEvidence"
         [caseId; evidenceId; holderName; description; ipfsHash; action] ;;
  nonce <- get_transaction_count self ;;
  tx <- transact self f (mkTxParams (account self) nonce) ;;
  wait_for_transaction_receipt self tx.

(** The function is looked up first, then the arguments are evaluated,
    the recipient address being validated among them, then the function
    is called on them. *)
Definition transferEvidence (caseId evidenceId to_addr to_name : pyval)
    (action desc : option pyval) : M Receipt :=
  let action := default (VStr "transferred") action in
  let desc := default (VStr "") desc in
  self <- get_self ;;
  function_named (contract self) "transferEvidence" ;;;
  to <- lift (toChecksumAddress env to_addr) ;;
  f <- bound_to (contract self) "transferEvidence"
         [caseId; evidenceId; VStr to; to_name; action; desc] ;;
  nonce <- get_transaction_count self ;;
  tx <- transact self f (mkTxParams (account self) nonce) ;;
  wait_for_transaction_receipt self tx.

Definition deleteEvidence (caseId evidenceId : pyval) : M Receipt :=
  self <- get_self ;;
  f <- functions (contract self) "deleteEvidence" [caseId; evidenceId] ;;
  nonce <- get_transaction_count self ;;
  tx <- transact self f (mkTxParams (account self) nonce) ;;
  wait_for_transaction_receipt self tx.

Definition viewEvidence (caseId evidenceId : pyval) : M pyval :=
  self <- get_self ;;
  f <- functions (contract self) "viewEvidence" [caseId; evidenceId] ;;
  call self f.

Definition getHistory (caseId evidenceId : pyval) : M pyval :=
  self <- get_self ;;
  f <- functions (contract self) "getHistory" [caseId; evidenceId] ;;
  call self f.

Definition getPrivateKey : M string :=
  text <- lift (read_file env "privatekey.txt") ;;
  ret (strip text).

Definition getAllEvidenceIds : M pyval :=
  self <- get_self ;;
  f <- functions (contract self) "getAllEvidenceIds" [] ;;
  call self f.

(** ** upload_file_to_ipfs *)

(** The body of the [try]. *)
Definition upload_body (filepath : string) : M pyval :=
  remote EvIpfsConnect (ipfs_connect env) ;;;
  res <- remote (EvIpfsAdd filepath) (ipfs_add env filepath) ;;
  shown <- lift (subscript_str res "Hash") ;;
  print [Lit "File uploaded to IPFS with hash: "; Fmt shown] ;;;
  lift (subscript_str res "Hash").

Definition upload_file_to_ipfs (filepath : string) : M pyval :=
  try_except (upload_body filepath)
    (fun e => print [Lit "IPFS upload error: "; FmtExn e] ;;; ret VNone).

(** ** main_cli: the console loop *)

Definition nl : string := String (ascii_of_nat 10) EmptyString.

Definition print_menu : M unit :=
  print [Lit (nl +:+ "==================")] ;;;
  print [Lit "Chain of Custody Demo"] ;;;
  print [Lit "===================="] ;;;
  print [Lit "1. Register new evidence"] ;;;
  print [Lit "2. Transfer evidence"] ;;;
  print [Lit "3. Delete evidence"] ;;;
  print [Lit "4. View evidence details"] ;;;
  print [Lit "5. Get evidence history"] ;;;
  print [Lit "6. List all evidence IDs"] ;;;
  print [Lit "0. Exit"].

(** What follows the upload in option 1. *)
Definition register_after_upload (caseId evidenceId holderName description : string)
    (ipfsHash : pyval) : M unit :=
  if is_None ipfsHash then
    print [Lit "Failed to upload file to IPFS. Cannot register evidence."]
  else
    let action := VStr "collected" in
    try_except
      (receipt <- registerEvidence (VStr caseId) (VStr evidenceId) (VStr holderName)
                    (VStr description) ipfsHash (Some action) ;;
       print [Lit "Evidence registered with Tx Hash: "; Lit (transactionHash receipt)])
      (fun e => print [Lit "Error registering evidence: "; FmtExn e]).

Definition option_1 : M unit :=
  caseId <- input "Enter case ID: " ;;
  evidenceId <- input "Enter evidence ID: " ;;
  holderName <- input "Your holder name: " ;;
  description <- input "Evidence description: " ;;
  filePath <- input "Enter path to evidence file to upload: " ;;
  ipfsHash <- upload_file_to_ipfs filePath ;;
  register_after_upload caseId evidenceId holderName description ipfsHash.

Definition option_2 : M unit :=
  caseId <- input "Enter case ID: " ;;
  evidenceId <- input "Enter evidence ID: " ;;
  toAddress <- input "Enter recipient Ethereum address: " ;;
  toName <- input "Enter recipient name: " ;;
  let action := VStr "transferred" in
  description <- input "Transfer description: " ;;
  try_except
    (receipt <- transferEvidence (VStr caseId) (VStr evidenceId) (VStr toAddress)
                  (VStr toName) (Some action) (Some (VStr description)) ;;
     print [Lit "Evidence transferred with Tx Hash: "; Lit (transactionHash receipt)])
    (fun e => print [Lit "Error transferring evidence: "; FmtExn e]).

Definition option_3 : M unit :=
  caseId <- input "Enter case ID: " ;;
  evidenceId <- input "Enter evidence ID: " ;;
  try_except
    (receipt <- deleteEvidence (VStr caseId) (VStr evidenceId) ;;
     print [Lit "Evidence deleted with Tx Hash: "; Lit (transactionHash receipt)])
    (fun e => print [Lit "Error deleting evidence: "; FmtExn e]).

Definition option_4 : M unit :=
  caseId <- input "Enter case ID: " ;;
  evidenceId <- input "Enter evidence ID: " ;;
  try_except
    (e <- viewEvidence (VStr caseId) (VStr evidenceId) ;;
     e0 <- lift (subscript_int e 0) ;;
     print [Lit (nl +:+ "Evidence ID: "); Fmt e0] ;;;
     e1 <- lift (subscript_int e 1) ;;
     print [Lit "Current Holder: "; Fmt e1] ;;;
     e2 <- lift (subscript_int e 2) ;;
     print [Lit "Holder Name: "; Fmt e2] ;;;
     e3 <- lift (subscript_int e 3) ;;
     print [Lit "Description: "; Fmt e3] ;;;
     e4 <- lift (subscript_int e 4) ;;
     print [Lit "IPFS Hash: "; Fmt e4] ;;;
     e5 <- lift (subscript_int e 5) ;;
     print [Lit "Deleted: "; Lit (if truthy e5 then "Yes" else "No")])
    (fun e => print [Lit "Error viewing evidence: "; FmtExn e]).

(** The body of [for i, record in enumerate(history)], from index [i]. *)
Fixpoint print_history (i : nat) (records : list pyval) : M unit :=
  match records with
  | [] => ret tt
  | record :: rest =>
      stamp <- lift (subscript_int record 4) ;;
      timestamp <- lift (format_timestamp env stamp) ;;
      print [Lit (nl +:+ "Entry #"); Fmt (VInt (Z.of_nat (i + 1))); Lit ":"] ;;;
      r0 <- lift (subscript_int record 0) ;;
      print [Lit "  Holder Address: "; Fmt r0] ;;;
      r1 <- lift (subscript_int record 1) ;;
      print [Lit "  Holder Name: "; Fmt r1] ;;;
      r2 <- lift (subscript_int record 2) ;;
      print [Lit "  Action: "; Fmt r2] ;;;
      r3 <- lift (subscript_int record 3) ;;
      print [Lit "  Description: "; Fmt r3] ;;;
      print [Lit "  Timestamp: "; Lit timestamp] ;;;
      print_history (S i) rest
  end.

Definition option_5 : M unit :=
  caseId <- input "Enter case ID: " ;;
  evidenceId <- input "Enter evidence ID: " ;;
  try_except
    (history <- getHistory (VStr caseId) (VStr evidenceId) ;;
     n <- lift (py_len history) ;;
     if (n =? 0)%nat then print [Lit "No history found."]
     else (records <- lift (py_iter history) ;; print_history 0 records))
    (fun e => print [Lit "Error fetching history: "; FmtExn e]).

Fixpoint print_ids (ids : list pyval) : M unit :=
  match ids with
  | [] => ret tt
  | evid :: rest => print [Lit " - "; Fmt evid] ;;; print_ids rest
  end.

Definition option_6 : M unit :=
  try_except
    (all_ids <- getAllEvidenceIds ;;
     print [Lit (nl +:+ "All evidence IDs:")] ;;;
     ids <- lift (py_iter all_ids) ;;
     print_ids ids)
    (fun e => print [Lit "Error listing evidence: "; FmtExn e]).

(** What one menu choice does; [true] is the [break]. *)
Definition dispatch (choice : string) : M bool :=
  if String.eqb choice "1" then option_1 ;;; ret false
  else if String.eqb choice "2" then option_2 ;;; ret false
  else if String.eqb choice "3" then option_3 ;;; ret false
  else if String.eqb choice "4" then option_4 ;;; ret false
  else if String.eqb choice "5" then option_5 ;;; ret false
  else if String.eqb choice "6" then option_6 ;;; ret false
  else if String.eqb choice "0" then print [Lit "Exiting CLI."] ;;; ret true
  else print [Lit "Invalid choice. Please select a valid option."] ;;; ret false.

(** One turn of [while True]. *)
Definition iteration : M bool :=
  print_menu ;;;
  line <- input "Choose an option: " ;;
  dispatch (strip line).

(** The loop, for at most [fuel] turns: [Some tt] when it was left by
    [break], [None] when the turns ran out first. *)
Fixpoint main_loop (fuel : nat) : M (option unit) :=
  match fuel with
  | O => ret None
  | S fuel' =>
      stop <- iteration ;;
      if stop then ret (Some tt) else main_loop fuel'
  end.

End Client.

(** ** Construction of the session and the process *)

Definition rbind {A B} (r : result A) (k : A -> result B) : result B :=
  match r with
  | Ok a => k a
  | Raise e => Raise e
  end.

Notation "x <~ r ;; k" := (rbind r (fun x => k))
  (at level 100, r at next level, right associativity).

Section Startup.

Context {W : Type}.
Variable env : Env W.

(** [ChainOfCustody.__init__]. *)
Definition __init__ (http_provider contract_addr : pyval) (contract_config : string)
    (account : pyval) : result ChainOfCustody :=
  let self_web3 := http_provider in
  self_contract_address <~ toChecksumAddress env contract_addr ;;
  self_contract_config <~ json_load_file env contract_config ;;
  self_account <~ toChecksumAddress env account ;;
  self_abi <~ subscript_str self_contract_config "abi" ;;
  match contract_error env self_contract_address self_abi with
  | Some e => Raise e
  | None =>
      Ok (mkChainOfCustody self_web3 self_contract_address self_contract_config
            self_account (mkContract self_contract_address self_abi))
  end.

(** The lines of [main_cli] before the loop. *)
Definition load_session : result ChainOfCustody :=
  config <~ json_load_file env "addr_list.json" ;;
  HTTP_PROVIDER <~ subscript_str config "HttpProvider" ;;
  CONTRACT_ADDRESS <~ subscript_str config "EvidenceChainOfCustody" ;;
  let CONTRACT_CONFIG_FILE := "../build/contracts/EvidenceChainOfCustody.json" in
  USER_ACCOUNT <~ subscript_str config "DemoUser" ;;
  ALT_ACCOUNT <~ subscript_str config "AnotherUser" ;;
  __init__ HTTP_PROVIDER CONTRACT_ADDRESS CONTRACT_CONFIG_FILE USER_ACCOUNT.

(** How the process ends. *)
Inductive ProcessEnd : Type :=
| ExitSuccess
| Uncaught (e : exn)
| StillRunning.

Definition exit_code (p : ProcessEnd) : option Z :=
  match p with
  | ExitSuccess => Some 0
  | Uncaught (Exc _ _) => Some 1
  | Uncaught (BaseExc _) => None
  | StillRunning => None
  end.

(** [main_cli()] run as the script, with the lines of standard input
    given, against the world [w]. *)
Definition main_cli (fuel : nat) (w : W) (lines : list string)
  : ProcessEnd * option State :=
  match load_session with
  | Raise e => (Uncaught e, None)
  | Ok session =>
      match main_loop env fuel (mkState w session [] lines []) with
      | (Ok (Some _), s) => (ExitSuccess, Some s)
      | (Ok None, s) => (StillRunning, Some s)
      | (Raise e, s) => (Uncaught e, Some s)
      end
  end.

End Startup.

(** ** The remote contract *)

(** Modelled from the spec: the evidence record of the deployed
    EvidenceChainOfCustody contract, whose source is not under src/: case
    identifier, evidence identifier, current holder address, holder
    display name, free-text description, content hash of an attachment,
    deleted flag. *)
Record Evidence : Type := mkEvidence {
  ev_case : string;
  ev_id : string;
  ev_holder : string;
  ev_holderName : string;
  ev_description : string;
  ev_ipfsHash : string;
  ev_deleted : bool
}.

(** Modelled from the spec: the history entry of the contract: holder
    address, holder name, action label, description, timestamp. *)
Record HistoryEntry : Type := mkHistoryEntry {
  h_holder : string;
  h_holderName : string;
  h_action : string;
  h_description : string;
  h_timestamp : Z
}.

(** Modelled from the spec: the storage of the contract, the records and
    the histories by (case identifier, evidence identifier), the list of
    known evidence identifiers, and the time of the latest block. *)
Record Ledger : Type := mkLedger {
  records : gmap (string * string) Evidence;
  histories : gmap (string * string) (list HistoryEntry);
  ids : list string;
  clock : Z
}.

Definition genesis (t0 : Z) : Ledger := mkLedger ∅ ∅ [] t0.

Definition history (l : Ledger) (k : string * string) : list HistoryEntry :=
  default [] (histories l !! k).

Definition as_str (v : pyval) : option string :=
  match v with VStr s => Some s | _ => None end.

Definition str_args (args : list pyval) : option (list string) :=
  mapM as_str args.

Definition reverted (why : string) : exn :=
  Exc "ContractLogicError" ("execution reverted: " +:+ why).

(** Modelled from the spec: the state change of one contract function
    run from [sender] in a block stamped [now].  Register creates the
    record, held by the caller and not deleted, and is rejected for an
    evidence identifier the case already has; transfer changes holder
    address, holder name and description; both append one entry to the
    history of the record; delete sets the flag and keeps the record;
    transfer and delete are rejected when there is no record. *)
Definition execute (sender : string) (f : ContractFunction) (now : Z) (l : Ledger)
  : result Ledger :=
  match str_args (fn_args f) with
  | Some [c; e; a3; a4; a5; a6] =>
      if String.eqb (fn_name f) "registerEvidence" then
        let holderName := a3 in
        let description := a4 in
        let ipfsHash := a5 in
        let action := a6 in
        match records l !! (c, e) with
        | Some _ => Raise (reverted "evidence already registered")
        | None =>
            Ok (mkLedger
                  (<[(c, e) := mkEvidence c e sender holderName description ipfsHash
                                 false]> (records l))
                  (<[(c, e) := history l (c, e)
                       ++ [mkHistoryEntry sender holderName action description now]]>
                     (histories l))
                  (ids l ++ [e])
                  (clock l))
        end
      else if String.eqb (fn_name f) "transferEvidence" then
        let newHolder := a3 in
        let newHolderName := a4 in
        let action := a5 in
        let description := a6 in
        match records l !! (c, e) with
        | None => Raise (reverted "evidence not found")
        | Some r =>
            Ok (mkLedger
                  (<[(c, e) := mkEvidence (ev_case r) (ev_id r) newHolder newHolderName
                                 description (ev_ipfsHash r) (ev_deleted r)]>
                     (records l))
                  (<[(c, e) := history l (c, e)
                       ++ [mkHistoryEntry newHolder newHolderName action description
                             now]]>
                     (histories l))
                  (ids l)
                  (clock l))
        end
      else Raise (reverted "unknown function")
  | Some [c; e] =>
      if String.eqb (fn_name f) "deleteEvidence" then
        match records l !! (c, e) with
        | None => Raise (reverted "evidence not found")
        | Some r =>
            Ok (mkLedger
                  (<[(c, e) := mkEvidence (ev_case r) (ev_id r) (ev_holder r)
                                 (ev_holderName r) (ev_description r) (ev_ipfsHash r)
                                 true]> (records l))
                  (histories l) (ids l) (clock l))
        end
      else Raise (reverted "unknown function")
  | _ => Raise (reverted "unknown function")
  end.

(** Modelled from the spec: a transaction is mined in a block stamped
    [now], which is not older than the latest block (timestamps are
    monotonic); the block becomes the latest. *)
Definition apply_tx (sender : string) (f : ContractFunction) (now : Z) (l : Ledger)
  : result Ledger :=
  if (now <? clock l)%Z then Raise (Exc "ValueError" "block older than its parent")
  else
    l' <~ execute sender f now l ;;
    Ok (mkLedger (records l') (histories l') (ids l') now).

Definition zero_address : string := "0x0000000000000000000000000000000000000000".

(** The record the contract answers for a pair it does not know. *)
Definition empty_record : pyval :=
  VList [VStr ""; VStr zero_address; VStr ""; VStr ""; VStr ""; VBool false].

(** The tuple of a record, in the order option 4 of the console prints
    it: evidence identifier, holder, holder name, description, content
    hash, deleted. *)
Definition evidence_val (r : Evidence) : pyval :=
  VList [VStr (ev_id r); VStr (ev_holder r); VStr (ev_holderName r);
         VStr (ev_description r); VStr (ev_ipfsHash r); VBool (ev_deleted r)].

Definition entry_val (h : HistoryEntry) : pyval :=
  VList [VStr (h_holder h); VStr (h_holderName h); VStr (h_action h);
         VStr (h_description h); VInt (h_timestamp h)].

(** Modelled from the spec: the read-only functions of the contract.
    View answers the current record, the empty one when there is none;
    history answers the entries of the pair, in the order they were
    appended, none when there are none; the third answers all known
    evidence identifiers. *)
Definition read_only (f : ContractFunction) (l : Ledger) : result pyval :=
  match str_args (fn_args f) with
  | Some [c; e] =>
      if String.eqb (fn_name f) "viewEvidence" then
        Ok (from_option evidence_val empty_record (records l !! (c, e)))
      else if String.eqb (fn_name f) "getHistory" then
        Ok (VList (map entry_val (history l (c, e))))
      else Raise (reverted "unknown function")
  | Some [] =>
      if String.eqb (fn_name f) "getAllEvidenceIds" then Ok (VList (map VStr (ids l)))
      else Raise (reverted "unknown function")
  | _ => Raise (reverted "unknown function")
  end.

(** The ledger states that transactions can produce. *)
Inductive reachable : Ledger -> Prop :=
| reachable_genesis t0 : reachable (genesis t0)
| reachable_tx l sender f now l' :
    reachable l -> apply_tx sender f now l = Ok l' -> reachable l'.

(** Runs the transactions in order, each in a block one second after the
    latest; one that reverts changes nothing. *)
Definition replay (txs : list (string * ContractFunction)) (l : Ledger) : Ledger :=
  fold_left
    (fun l tx =>
       match apply_tx (fst tx) (snd tx) (clock l + 1) l with
       | Ok l' => l'
       | Raise _ => l
       end)
    txs l.

(** Older entries come first. *)
Definition by_time (a b : HistoryEntry) : Prop := (h_timestamp a <= h_timestamp b)%Z.

(** What holds of every ledger transactions can produce: a pair without
    record has no history, no entry is younger than the latest block, and
    the entries of a history are in the order of their timestamps. *)
Record ledger_inv (l : Ledger) : Prop := mkLedgerInv {
  inv_unregistered : forall k, records l !! k = None -> histories l !! k = None;
  inv_past : forall k, Forall (fun h => (h_timestamp h <= clock l)%Z) (history l k);
  inv_sorted : forall k, StronglySorted by_time (history l k)
}.

(** ** A node with this contract and a storage daemon *)

Record World : Type := mkWorld {
  ledger : Ledger;
  nonces : gmap string Z;
  balances : gmap string Z;
  receipts : gmap string Receipt;
  accounts : list string;
  ipfs_running : bool;
  files : gmap string string
}.

Definition set_ledger (l : Ledger) (tx : string) (r : Receipt) (sender : string)
    (w : World) : World :=
  mkWorld l (<[sender := default 0 (nonces w !! sender) + 1]> (nonces w))
    (balances w) (<[tx := r]> (receipts w)) (accounts w) (ipfs_running w) (files w).

Definition node_accounts (_ : pyval) (w : World) : result pyval * World :=
  (Ok (VList (map VStr (accounts w))), w).

Definition node_get_balance (_ : pyval) (a : string) (w : World)
  : result Z * World :=
  (Ok (default 0 (balances w !! a)), w).

Definition node_get_transaction_count (_ : pyval) (a : string) (w : World)
  : result Z * World :=
  (Ok (default 0 (nonces w !! a)), w).

Definition node_transact (_ : pyval) (_ : Contract) (f : ContractFunction)
    (p : TxParams) (w : World) : result string * World :=
  if negb (tx_nonce p =? default 0 (nonces w !! tx_from p))%Z
  then (Raise (Exc "ValueError" "the tx doesn't have the correct nonce"), w)
  else
    match apply_tx (tx_from p) f (clock (ledger w) + 1) (ledger w) with
    | Raise e => (Raise e, w)
    | Ok l' =>
        let tx := "0x" +:+ pretty (clock l') in
        (Ok tx, set_ledger l' tx (mkReceipt tx (clock l') 1) (tx_from p) w)
    end.

Definition node_wait (_ : pyval) (tx : string) (w : World) : result Receipt * World :=
  match receipts w !! tx with
  | Some r => (Ok r, w)
  | None => (Raise (Exc "TimeExhausted" "transaction is not in the chain"), w)
  end.

Definition node_call (_ : pyval) (_ : Contract) (f : ContractFunction)
    (_ : string) (w : World) : result pyval * World :=
  (read_only f (ledger w), w).

Definition daemon_connect (w : World) : result unit * World :=
  if ipfs_running w then (Ok tt, w)
  else (Raise (Exc "ConnectionError" "could not connect to the IPFS daemon"), w).

Definition daemon_add (path : string) (w : World) : result pyval * World :=
  match files w !! path with
  | Some h => (Ok (VDict [("Name", VStr path); ("Hash", VStr h)]), w)
  | None => (Raise (Exc "FileNotFoundError" path), w)
  end.

Definition node_env (l : Library) : Env World :=
  mkEnv World l (fun _ _ => None) (fun _ _ => None) node_accounts node_get_balance
    node_get_transaction_count node_transact node_wait node_call
    daemon_connect daemon_add.

(** ** A library and a world for the examples *)

Definition is_hex_digit (c : ascii) : bool :=
  let n := nat_of_ascii c in
  ((48 <=? n)%nat && (n <=? 57)%nat) || ((65 <=? n)%nat && (n <=? 70)%nat)
  || ((97 <=? n)%nat && (n <=? 102)%nat).

Fixpoint all_hex (s : string) : bool :=
  match s with
  | EmptyString => true
  | String c s' => is_hex_digit c && all_hex s'
  end.

(** The address check of the examples: [0x] and forty hexadecimal digits;
    the example addresses are written in the form the check returns. *)
Definition example_checksum (v : pyval) : result string :=
  match v with
  | VStr (String "0" (String "x" digits)) =>
      if all_hex digits && (String.length digits =? 40)%nat then Ok ("0x" +:+ digits)
      else Raise (Exc "ValueError" "Unknown format, attempted to normalize")
  | VStr _ => Raise (Exc "ValueError" "Unknown format, attempted to normalize")
  | _ => Raise (Exc "TypeError" "Value must be any string")
  end.

Definition alice : string := "0xA11CE00000000000000000000000000000000001".
Definition bob : string := "0xB0B0000000000000000000000000000000000002".
Definition deployed : string := "0xC0DE000000000000000000000000000000000003".

Definition example_files (path : string) : result pyval :=
  if String.eqb path "addr_list.json" then
    Ok (VDict [("HttpProvider", VStr "http://127.0.0.1:8545");
               ("EvidenceChainOfCustody", VStr deployed);
               ("DemoUser", VStr alice);
               ("AnotherUser", VStr bob)])
  else if String.eqb path "../build/contracts/EvidenceChainOfCustody.json" then
    Ok (VDict [("contractName", VStr "EvidenceChainOfCustody"); ("abi", VList [])])
  else Raise (Exc "FileNotFoundError" path).

Definition example_lib : Library :=
  mkLibrary example_checksum example_files
    (fun path => if String.eqb path "privatekey.txt" then Ok " 0xkey " 
                 else Raise (Exc "FileNotFoundError" path))
    (fun v => match v with
              | VInt z => Ok (pretty z)
              | _ => Raise (Exc "TypeError" "an integer is required")
              end)
    (fun _ _ => None).

Definition example_env : Env World := node_env example_lib.

Definition example_world : World :=
  mkWorld (genesis 1700000000) ∅ {[alice := 2500000000000000000]} ∅ [alice; bob]
    true {[ "photo.jpg" := "bafy123" ]}.

Definition example_session : ChainOfCustody :=
  mkChainOfCustody (VStr "http://127.0.0.1:8545") deployed
    (VDict [("contractName", VStr "EvidenceChainOfCustody"); ("abi", VList [])])
    alice (mkContract deployed (VList [])).

Definition example_state (lines : list string) : State :=
  mkState example_world example_session [] lines [].

Definition register_case1 : ContractFunction :=
  mkContractFunction "registerEvidence"
    [VStr "CASE1"; VStr "EVID1"; VStr "Alice"; VStr "found at scene";
     VStr "bafy123"; VStr "collected"].

Definition transfer_case1 : ContractFunction :=
  mkContractFunction "transferEvidence"
    [VStr "CASE1"; VStr "EVID1"; VStr bob; VStr "Bob"; VStr "transferred"; VStr ""].

(** ** Statement devices *)

Section Devices.

Context {W : Type}.
Variable env : Env W.

(** [s'] comes after [s] in a run: the session object is the same, input
    was only consumed, the trace and the output only grew. *)
Record follows (s s' : @State W) : Prop := mkFollows {
  same_session : coc s' = coc s;
  input_consumed : stdin s' `suffix_of` stdin s;
  trace_grows : trace s `prefix_of` trace s';
  output_grows : stdout s `prefix_of` stdout s'
}.

Definition stable {A} (m : @M W A) : Prop :=
  forall s, follows s (snd (m s)).

(** The only exceptions [m] lets out are the end of standard input and
    those that are not instances of [Exception]. *)
Definition contained {A} (m : @M W A) : Prop :=
  forall s,
    match m s with
    | (Ok _, _) => True
    | (Raise e, s') => (e = EOFError /\ stdin s' = []) \/ is_Exception e = false
    end.

(** How one mutating method went, from the state [s] it was called in:
    the result it gave and the remote calls it made, in order.  The bound
    function [f] is the one the method built. *)
Inductive submission (s : @State W) (f : ContractFunction)
  : result Receipt -> list Event -> W -> Prop :=
| sub_no_nonce e w :
    eth_get_transaction_count env (web3 (coc s)) (account (coc s)) (world s)
      = (Raise e, w) ->
    submission s f (Raise e) [EvGetTransactionCount (account (coc s))] w
| sub_refused nonce w e w' :
    eth_get_transaction_count env (web3 (coc s)) (account (coc s)) (world s)
      = (Ok nonce, w) ->
    eth_transact env (web3 (coc s)) (contract (coc s)) f
      (mkTxParams (account (coc s)) nonce) w = (Raise e, w') ->
    submission s f (Raise e)
      [EvGetTransactionCount (account (coc s));
       EvTransact (contract (coc s)) f (mkTxParams (account (coc s)) nonce)] w'
| sub_waited nonce w tx w' r w'' :
    eth_get_transaction_count env (web3 (coc s)) (account (coc s)) (world s)
      = (Ok nonce, w) ->
    eth_transact env (web3 (coc s)) (contract (coc s)) f
      (mkTxParams (account (coc s)) nonce) w = (Ok tx, w') ->
    eth_wait_for_transaction_receipt env (web3 (coc s)) tx w' = (r, w'') ->
    submission s f r
      [EvGetTransactionCount (account (coc s));
       EvTransact (contract (coc s)) f (mkTxParams (account (coc s)) nonce);
       EvWaitReceipt tx] w''.

(** The state a method leaves: the world it ended in and the calls it
    added to the trace. *)
Definition after (s : @State W) (added : list Event) (w : W) : @State W :=
  mkState w (coc s) (trace s ++ added) (stdin s) (stdout s).

(** The state after [prompts] were shown and answered, [rest] being the
    input left. *)
Definition answered (prompts : list string) (rest : list string) (s : @State W)
  : @State W :=
  mkState (world s) (coc s) (trace s) rest
    (fold_left (fun out p => out ++ [[Lit p]]) prompts (stdout s)).

(** A mutating method either raised before any remote call, leaving the
    state as it was, or went through a [submission] of the function it
    bound. *)
Definition sends_with_fresh_nonce (s : @State W) (run : result Receipt * @State W)
  : Prop :=
  (exists e, run = (Raise e, s))
  \/ (exists f added w, submission s f (fst run) added w /\ snd run = after s added w).

(** Every transaction submitted between [s] and [s'] was submitted to
    the contract of the session, from the session account, right after
    the first remote call, which asked for the transaction count of that
    account and was answered the nonce the transaction carries. *)
Definition every_submission_fresh (s s' : @State W) : Prop :=
  forall pre c f p post,
    trace s' = trace s ++ pre ++ EvTransact c f p :: post ->
    pre = [EvGetTransactionCount (account (coc s))]
    /\ c = contract (coc s)
    /\ tx_from p = account (coc s)
    /\ exists w,
         eth_get_transaction_count env (web3 (coc s)) (account (coc s)) (world s)
         = (Ok (tx_nonce p), w).

(** The calls that go to the ledger node, as opposed to the storage
    daemon. *)
Definition is_ledger_call (ev : Event) : bool :=
  match ev with EvIpfsConnect | EvIpfsAdd _ => false | _ => true end.

(** The nonce of a submitted transaction. *)
Definition submitted_nonce (ev : Event) : option Z :=
  match ev with EvTransact _ _ p => Some (tx_nonce p) | _ => None end.

(** What the three mutating methods end with once their function is
    bound: the transaction count, the submission, the wait. *)
Definition ending (s : @State W) (f : ContractFunction) : result Receipt * @State W :=
  bind (get_transaction_count env (coc s)) (fun nonce =>
  bind (transact env (coc s) f (mkTxParams (account (coc s)) nonce)) (fun tx =>
  wait_for_transaction_receipt env (coc s) tx)) s.

(** The prompts of options 1, 2 and of options 3 to 5. *)
Definition prompts_1 : list string :=
  ["Enter case ID: "; "Enter evidence ID: "; "Your holder name: ";
   "Evidence description: "; "Enter path to evidence file to upload: "].

Definition prompts_2 : list string :=
  ["Enter case ID: "; "Enter evidence ID: "; "Enter recipient Ethereum address: ";
   "Enter recipient name: "; "Transfer description: "].

Definition prompts_3 : list string := ["Enter case ID: "; "Enter evidence ID: "].

End Devices.

(** ** Statement devices for the displays, the reads and the end of input *)

Section Displays.

Context {W : Type}.
Variable env : Env W.

(** [m] leaves what [obs] observes of the state as it was. *)
Definition preserves {X A} (obs : @State W -> X) (m : @M W A) : Prop :=
  forall s, obs (snd (m s)) = obs s.

(** The calls of a transaction: count, submission, wait. *)
Definition is_write_call (ev : Event) : bool :=
  match ev with
  | EvGetTransactionCount _ | EvTransact _ _ _ | EvWaitReceipt _ => true
  | _ => false
  end.

Definition writes (s : @State W) : list Event := filter is_write_call (trace s).

(** The state after the lines were printed. *)
Definition emit_all (lines : list (list piece)) (s : @State W) : @State W :=
  fold_left (fun s line => emit line s) lines s.

(** What a turn shows before it reads the choice. *)
Definition menu_prompt : list string :=
  [nl +:+ "=================="; "Chain of Custody Demo"; "====================";
   "1. Register new evidence"; "2. Transfer evidence"; "3. Delete evidence";
   "4. View evidence details"; "5. Get evidence history";
   "6. List all evidence IDs"; "0. Exit"; "Choose an option: "].

Definition view_labels : list string :=
  [nl +:+ "Evidence ID: "; "Current Holder: "; "Holder Name: "; "Description: ";
   "IPFS Hash: "].

(** The lines option 4 prints for the fields it finds: one per field up
    to the fifth, and the deleted line when there is a sixth. *)
Definition view_lines (fields : list pyval) : list (list piece) :=
  zip_with (fun label v => [Lit label; Fmt v]) view_labels fields
  ++ match nth_error fields 5 with
     | Some e5 => [[Lit "Deleted: "; Lit (if truthy e5 then "Yes" else "No")]]
     | None => []
     end.

(** The six lines option 5 prints for the entry at index [i], when the
    entry is a sequence of at least five values whose fifth formats as a
    time. *)
Definition entry_lines (i : nat) (record : pyval) : option (list (list piece)) :=
  match record with
  | VList (r0 :: r1 :: r2 :: r3 :: r4 :: _) =>
      match format_timestamp env r4 with
      | Ok timestamp =>
          Some [[Lit (nl +:+ "Entry #"); Fmt (VInt (Z.of_nat (i + 1))); Lit ":"];
                [Lit "  Holder Address: "; Fmt r0];
                [Lit "  Holder Name: "; Fmt r1];
                [Lit "  Action: "; Fmt r2];
                [Lit "  Description: "; Fmt r3];
                [Lit "  Timestamp: "; Lit timestamp]]
      | Raise _ => None
      end
  | _ => None
  end.

Fixpoint history_lines (i : nat) (records : list pyval)
  : option (list (list piece)) :=
  match records with
  | [] => Some []
  | record :: rest =>
      match entry_lines i record, history_lines (S i) rest with
      | Some first, Some others => Some (first ++ others)
      | _, _ => None
      end
  end.

Definition id_lines (ids : list pyval) : list (list piece) :=
  map (fun evid => [Lit " - "; Fmt evid]) ids.

End Displays.

(** A node whose receipts never come, a storage daemon that is
    interrupted, and a configuration without its fourth entry. *)
Definition stalled_env : Env World :=
  mkEnv World example_lib (fun _ _ => None) (fun _ _ => None) node_accounts
    node_get_balance
    node_get_transaction_count node_transact
    (fun _ tx w => (Raise (Exc "TimeExhausted" tx), w))
    node_call daemon_connect daemon_add.

Definition interrupted_env : Env World :=
  mkEnv World example_lib (fun _ _ => None) (fun _ _ => None) node_accounts
    node_get_balance
    node_get_transaction_count node_transact node_wait node_call
    (fun w => (Raise (BaseExc "KeyboardInterrupt"), w)) daemon_add.

(** The example world after evidence EVID1 of case CASE1 was registered,
    and after it was then transferred. *)
Definition registered_state (lines : list string) : State :=
  mkState
    (mkWorld (replay [(alice, register_case1)] (genesis 1700000000)) ∅ ∅ ∅
       [alice; bob] true ∅)
    example_session [] lines [].

Definition transferred_state (lines : list string) : State :=
  mkState
    (mkWorld (replay [(alice, register_case1); (alice, transfer_case1)]
                (genesis 1700000000)) ∅ ∅ ∅ [alice; bob] true ∅)
    example_session [] lines [].

(** An interface descriptor as the build file holds it: one entry per
    function, with its name and the types of its inputs. *)
Definition abi_function (name : string) (inputs : list string) : pyval :=
  VDict [("type", VStr "function"); ("name", VStr name);
         ("inputs",
          VList (map (fun t => VDict [("name", VStr ""); ("type", VStr t)]) inputs))].

Definition reader_abi : pyval :=
  VList [abi_function "viewEvidence" ["string"; "string"];
         abi_function "getHistory" ["string"; "string"];
         abi_function "getAllEvidenceIds" []].

Definition custody_abi : pyval :=
  VList [abi_function "registerEvidence"
           ["string"; "string"; "string"; "string"; "string"; "string"];
         abi_function "transferEvidence"
           ["string"; "string"; "address"; "string"; "string"; "string"];
         abi_function "deleteEvidence" ["string"; "string"];
         abi_function "viewEvidence" ["string"; "string"];
         abi_function "getHistory" ["string"; "string"];
         abi_function "getAllEvidenceIds" []].

(** The number of inputs of the function [name] in an interface, when the
    interface has a function of that name. *)
Definition abi_entry_arity (name : string) (entry : pyval) : option nat :=
  match entry with
  | VDict d =>
      match assoc_get "type" d, assoc_get "name" d, assoc_get "inputs" d with
      | Some (VStr kind), Some (VStr n), Some (VList inputs) =>
          if String.eqb kind "function" && String.eqb n name
          then Some (length inputs) else None
      | _, _, _ => None
      end
  | _ => None
  end.

Definition abi_arity (interface : pyval) (name : string) : option nat :=
  match interface with
  | VList entries => head (omap (abi_entry_arity name) entries)
  | _ => None
  end.

(** The checks of the examples that go by the interface: a function is
    found when the interface has one of that name, and bound when the
    number of arguments is that of its inputs.  An interface with nothing
    in it has its own error. *)
Definition abi_lookup (c : Contract) (name : string) : option exn :=
  match abi c with
  | VNone => Some (Exc "NoABIFound" "There is no ABI found for this contract.")
  | VList [] =>
      Some (Exc "NoABIFunctionsFound"
              "The abi for this contract contains no function definitions.")
  | interface =>
      match abi_arity interface name with
      | Some _ => None
      | None => Some (Exc "ABIFunctionNotFound" name)
      end
  end.

Definition abi_binding (c : Contract) (f : ContractFunction) : option exn :=
  match abi_arity (abi c) (fn_name f) with
  | Some k =>
      if (k =? length (fn_args f))%nat then None
      else Some (Exc "ValidationError" (fn_name f))
  | None => Some (Exc "ABIFunctionNotFound" (fn_name f))
  end.

Definition abi_env : Env World :=
  mkEnv World example_lib abi_lookup abi_binding node_accounts node_get_balance
    node_get_transaction_count node_transact node_wait node_call
    daemon_connect daemon_add.

(** A session on the full interface of the contract, and one on an
    interface that has the read functions only. *)
Definition custody_session : ChainOfCustody :=
  mkChainOfCustody (VStr "http://127.0.0.1:8545") deployed
    (VDict [("contractName", VStr "EvidenceChainOfCustody"); ("abi", custody_abi)])
    alice (mkContract deployed custody_abi).

Definition reader_session : ChainOfCustody :=
  mkChainOfCustody (VStr "http://127.0.0.1:8545") deployed
    (VDict [("contractName", VStr "EvidenceChainOfCustody"); ("abi", reader_abi)])
    alice (mkContract deployed reader_abi).

Definition custody_state : State := mkState example_world custody_session [] [] [].

Definition reader_state : State := mkState example_world reader_session [] [] [].

(** A library whose build file has no interface in it. *)
Definition no_abi_lib : Library :=
  mkLibrary example_checksum
    (fun path => if String.eqb path "build.json"
                 then Ok (VDict [("contractName", VStr "EvidenceChainOfCustody")])
                 else example_files path)
    (read_file example_lib) (format_timestamp example_lib)
    (contract_error example_lib).

Definition three_entries (path : string) : result pyval :=
  if String.eqb path "addr_list.json" then
    Ok (VDict [("HttpProvider", VStr "http://127.0.0.1:8545");
               ("EvidenceChainOfCustody", VStr deployed);
               ("DemoUser", VStr alice)])
  else example_files path.

Definition three_entries_env : Env World :=
  node_env (mkLibrary example_checksum three_entries (read_file example_lib)
              (format_timestamp example_lib) (contract_error example_lib)).

(** ** The monad: framing lemmas *)

Section Framing.

Context {W : Type}.
Variable env : Env W.
Implicit Types s : @State W.

Lemma follows_refl s : follows s s.
Proof. by split. Qed.

Lemma follows_trans s1 s2 s3 : follows s1 s2 -> follows s2 s3 -> follows s1 s3.
Proof.
  intros [H1 H2 H3 H4] [K1 K2 K3 K4]. split.
  - by rewrite K1.
  - by etrans.
  - by etrans.
  - by etrans.
Qed.

Lemma stable_ret {A} (a : A) : stable (@ret W A a).
Proof. intros s. apply follows_refl. Qed.

Lemma stable_raise {A} e : stable (@raise W A e).
Proof. intros s. apply follows_refl. Qed.

Lemma stable_lift {A} (r : result A) : stable (@lift W A r).
Proof. intros s. apply follows_refl. Qed.

Lemma stable_get_self : stable (@get_self W).
Proof. intros s. apply follows_refl. Qed.

Lemma stable_print line : stable (@print W line).
Proof.
  intros s. split; simpl; try done. by apply prefix_app_r.
Qed.

Lemma stable_input prompt : stable (@input W prompt).
Proof.
  intros s. unfold input. simpl. destruct (stdin s) as [|l rest] eqn:E; simpl.
  - split; simpl; rewrite ?E; try done. by apply prefix_app_r.
  - split; simpl; rewrite ?E; try done.
    + by apply suffix_cons_r.
    + by apply prefix_app_r.
Qed.

Lemma stable_remote {A} ev (h : W -> result A * W) : stable (remote ev h).
Proof.
  intros s. unfold remote. simpl. destruct (h (world s)) as [r w']. simpl.
  split; simpl; try done. by apply prefix_app_r.
Qed.

Lemma stable_bind {A B} (m : @M W A) (k : A -> @M W B) :
  stable m -> (forall a, stable (k a)) -> stable (bind m k).
Proof.
  intros Hm Hk s. unfold bind. specialize (Hm s).
  destruct (m s) as [[a|e] s']; simpl in *; [|done].
  eapply follows_trans; [exact Hm|apply Hk].
Qed.

Lemma stable_try_except {A} (body : @M W A) handler :
  stable body -> (forall e, stable (handler e)) -> stable (try_except body handler).
Proof.
  intros Hm Hk s. unfold try_except. specialize (Hm s).
  destruct (body s) as [[a|e] s']; simpl in *; [done|].
  destruct (is_Exception e); [|done].
  eapply follows_trans; [exact Hm|apply Hk].
Qed.

Lemma contained_ret {A} (a : A) : contained (@ret W A a).
Proof. by intros s. Qed.

Lemma contained_print line : contained (@print W line).
Proof. by intros s. Qed.

Lemma contained_input prompt : contained (@input W prompt).
Proof.
  intros s. unfold input. simpl. destruct (stdin s) as [|l rest] eqn:E; simpl; [|done].
  left. by rewrite E.
Qed.

Lemma contained_bind {A B} (m : @M W A) (k : A -> @M W B) :
  contained m -> (forall a, contained (k a)) -> contained (bind m k).
Proof.
  intros Hm Hk s. unfold bind. specialize (Hm s).
  destruct (m s) as [[a|e] s']; [apply Hk|done].
Qed.

(** A [try] whose handler lets nothing out contains every [Exception]
    of its body, whatever the body is. *)
Lemma contained_try_except {A} (body : @M W A) handler :
  (forall e, contained (handler e)) -> contained (try_except body handler).
Proof.
  intros Hk s. unfold try_except.
  destruct (body s) as [[a|e] s']; [done|].
  destruct (is_Exception e) eqn:E; [apply Hk|by right].
Qed.

End Framing.

Create HintDb frame discriminated.
#[export] Hint Resolve stable_ret stable_raise stable_lift stable_get_self
  stable_print stable_input stable_remote contained_ret contained_print
  contained_input : frame.

(** Splits a goal about a composed computation along its structure. *)
Ltac frame :=
  repeat first
    [ solve [auto with frame]
    | apply stable_bind; [|intros ?]
    | apply stable_try_except; [|intros ?]
    | apply contained_bind; [|intros ?]
    | apply contained_try_except; intros ?
    | match goal with
      | |- stable (if ?b then _ else _) => destruct b
      | |- stable (match ?x with _ => _ end) => destruct x
      | |- contained (if ?b then _ else _) => destruct b
      end ].

(** ** Every part of the program is stable *)

Section Stability.

Context {W : Type}.
Variable env : Env W.

Lemma stable_function_named c name : stable (function_named env c name).
Proof. unfold function_named. frame. Qed.

Lemma stable_bound_to c name args : stable (bound_to env c name args).
Proof. unfold bound_to. frame. Qed.

Lemma stable_functions c name args : stable (functions env c name args).
Proof. unfold functions, function_named, bound_to. frame. Qed.

Lemma stable_get_transaction_count self : stable (get_transaction_count env self).
Proof. unfold get_transaction_count. frame. Qed.

Lemma stable_transact self f p : stable (transact env self f p).
Proof. unfold transact. frame. Qed.

Lemma stable_wait_for_transaction_receipt self tx :
  stable (wait_for_transaction_receipt env self tx).
Proof. unfold wait_for_transaction_receipt. frame. Qed.

Lemma stable_call self f : stable (call env self f).
Proof. unfold call. frame. Qed.

Hint Resolve stable_function_named stable_bound_to stable_functions
  stable_get_transaction_count stable_transact
  stable_wait_for_transaction_receipt stable_call : frame.

Lemma stable_getAccounts : stable (getAccounts env).
Proof. unfold getAccounts. frame. Qed.

Lemma stable_getBalance a : stable (getBalance env a).
Proof. unfold getBalance. frame. Qed.

Lemma stable_registerEvidence c e h d i a : stable (registerEvidence env c e h d i a).
Proof. unfold registerEvidence. frame. Qed.

Lemma stable_transferEvidence c e t n a d : stable (transferEvidence env c e t n a d).
Proof. unfold transferEvidence. frame. Qed.

Lemma stable_deleteEvidence c e : stable (deleteEvidence env c e).
Proof. unfold deleteEvidence. frame. Qed.

Lemma stable_viewEvidence c e : stable (viewEvidence env c e).
Proof. unfold viewEvidence. frame. Qed.

Lemma stable_getHistory c e : stable (getHistory env c e).
Proof. unfold getHistory. frame. Qed.

Lemma stable_getPrivateKey : stable (getPrivateKey env).
Proof. unfold getPrivateKey. frame. Qed.

Lemma stable_getAllEvidenceIds : stable (getAllEvidenceIds env).
Proof. unfold getAllEvidenceIds. frame. Qed.

Lemma stable_upload_file_to_ipfs path : stable (upload_file_to_ipfs env path).
Proof. unfold upload_file_to_ipfs, upload_body. frame. Qed.

Hint Resolve stable_getAccounts stable_getBalance stable_registerEvidence
  stable_transferEvidence stable_deleteEvidence stable_viewEvidence
  stable_getHistory stable_getPrivateKey stable_getAllEvidenceIds
  stable_upload_file_to_ipfs : frame.

Lemma stable_print_menu : stable (@print_menu W).
Proof. unfold print_menu. frame. Qed.

Lemma stable_print_history records : forall i, stable (print_history env i records).
Proof. induction records as [|r rest IH]; intros i; simpl; frame. Qed.

Lemma stable_print_ids ids : stable (@print_ids W ids).
Proof. induction ids as [|x rest IH]; simpl; frame. Qed.

Hint Resolve stable_print_menu stable_print_history stable_print_ids : frame.

Lemma stable_option_1 : stable (option_1 env).
Proof. unfold option_1, register_after_upload. frame. Qed.

Lemma stable_option_2 : stable (option_2 env).
Proof. unfold option_2. frame. Qed.

Lemma stable_option_3 : stable (option_3 env).
Proof. unfold option_3. frame. Qed.

Lemma stable_option_4 : stable (option_4 env).
Proof. unfold option_4. frame. Qed.

Lemma stable_option_5 : stable (option_5 env).
Proof. unfold option_5. frame. Qed.

Lemma stable_option_6 : stable (option_6 env).
Proof. unfold option_6. frame. Qed.

Hint Resolve stable_option_1 stable_option_2 stable_option_3 stable_option_4
  stable_option_5 stable_option_6 : frame.

Lemma stable_dispatch choice : stable (dispatch env choice).
Proof. unfold dispatch. frame. Qed.

Lemma stable_iteration : stable (iteration env).
Proof. unfold iteration. pose proof stable_dispatch. frame. Qed.

Lemma stable_main_loop fuel : stable (main_loop env fuel).
Proof.
  induction fuel as [|fuel IH]; simpl; [frame|].
  pose proof stable_iteration. frame.
Qed.

End Stability.

(** ** What the console loop lets out *)

Section Containment.

Context {W : Type}.
Variable env : Env W.
Implicit Types s : @State W.

Lemma contained_upload_file_to_ipfs path : contained (upload_file_to_ipfs env path).
Proof. unfold upload_file_to_ipfs. frame. Qed.

Lemma contained_register_after_upload c e h d i :
  contained (register_after_upload env c e h d i).
Proof. unfold register_after_upload. frame. Qed.

Hint Resolve contained_upload_file_to_ipfs contained_register_after_upload : frame.

Lemma contained_option_1 : contained (option_1 env).
Proof. unfold option_1. frame. Qed.

Lemma contained_option_2 : contained (option_2 env).
Proof. unfold option_2. frame. Qed.

Lemma contained_option_3 : contained (option_3 env).
Proof. unfold option_3. frame. Qed.

Lemma contained_option_4 : contained (option_4 env).
Proof. unfold option_4. frame. Qed.

Lemma contained_option_5 : contained (option_5 env).
Proof. unfold option_5. frame. Qed.

Lemma contained_option_6 : contained (option_6 env).
Proof. unfold option_6. frame. Qed.

Hint Resolve contained_option_1 contained_option_2 contained_option_3
  contained_option_4 contained_option_5 contained_option_6 : frame.

Lemma contained_dispatch choice : contained (dispatch env choice).
Proof. unfold dispatch. frame. Qed.

(** One turn with a line to read: the menu and the prompt are shown, the
    line is taken, and the stripped line is dispatched. *)
Lemma iteration_reads s l rest :
  stdin s = l :: rest ->
  exists s0,
    iteration env s = dispatch env (strip l) s0 /\ stdin s0 = rest
    /\ follows s s0 /\ world s0 = world s /\ trace s0 = trace s.
Proof.
  intros E. unfold iteration, print_menu, bind, print, input. simpl. rewrite E.
  eexists; split; [reflexivity|]. simpl. repeat split; simpl; try done.
  - rewrite E. by apply suffix_cons_r.
  - repeat rewrite <- app_assoc. by apply prefix_app_r.
Qed.

Lemma iteration_eof s :
  stdin s = [] -> exists s0, iteration env s = (Raise EOFError, s0) /\ stdin s0 = [].
Proof.
  intros E. unfold iteration, print_menu, bind, print, input. simpl. rewrite E.
  eexists; split; [reflexivity|]. done.
Qed.

Lemma contained_iteration : contained (iteration env).
Proof.
  intros s. destruct (stdin s) as [|l rest] eqn:E.
  - destruct (iteration_eof s E) as (s0 & -> & E0). by left.
  - destruct (iteration_reads s l rest E) as (s0 & -> & _). apply contained_dispatch.
Qed.

(** A turn that returns has taken at least one line. *)
Lemma iteration_consumes s stop s' :
  iteration env s = (Ok stop, s') -> (length (stdin s') < length (stdin s))%nat.
Proof.
  intros H. destruct (stdin s) as [|l rest] eqn:E.
  - destruct (iteration_eof s E) as (s0 & H0 & _). congruence.
  - destruct (iteration_reads s l rest E) as (s0 & H0 & E0 & _).
    rewrite H0 in H. pose proof (stable_dispatch env (strip l) s0) as F.
    rewrite H in F. simpl in F. apply input_consumed, suffix_length in F.
    rewrite E0 in F. simpl. lia.
Qed.

(** With more turns allowed than there are lines to read, the loop ends:
    by [break], or by an exception that is the end of input or is not an
    [Exception]. *)
Lemma main_loop_ends fuel : forall s,
  (length (stdin s) < fuel)%nat ->
  match main_loop env fuel s with
  | (Ok (Some _), _) => True
  | (Ok None, _) => False
  | (Raise e, s') => (e = EOFError /\ stdin s' = []) \/ is_Exception e = false
  end.
Proof.
  induction fuel as [|fuel IH]; intros s Hlen; [lia|].
  simpl. unfold bind. pose proof (contained_iteration s) as C.
  destruct (iteration env s) as [[stop|e] s1] eqn:E; [|exact C].
  destruct stop; [done|].
  apply IH. apply iteration_consumes in E. lia.
Qed.

End Containment.

(** ** The mutating methods *)

Section Mutations.

Context {W : Type}.
Variable env : Env W.
Implicit Types s : @State W.

(** The three calls every mutating method ends with. *)
Lemma nonce_transact_wait s f :
  exists added w,
    submission env s f
      (fst (bind (get_transaction_count env (coc s)) (fun nonce =>
            bind (transact env (coc s) f (mkTxParams (account (coc s)) nonce)) (fun tx =>
            wait_for_transaction_receipt env (coc s) tx)) s)) added w
    /\ snd (bind (get_transaction_count env (coc s)) (fun nonce =>
            bind (transact env (coc s) f (mkTxParams (account (coc s)) nonce)) (fun tx =>
            wait_for_transaction_receipt env (coc s) tx)) s) = after s added w.
Proof.
  unfold bind, get_transaction_count, transact, wait_for_transaction_receipt, remote.
  simpl.
  destruct (eth_get_transaction_count env _ _ (world s)) as [[nonce|e] w] eqn:E1; simpl.
  2:{ eexists _, _. split; [by eapply sub_no_nonce|done]. }
  destruct (eth_transact env _ _ f _ w) as [[tx|e] w'] eqn:E2; simpl.
  2:{ eexists _, _. split; [by eapply sub_refused|].
      unfold after, set_world, log. simpl. by rewrite <- app_assoc. }
  destruct (eth_wait_for_transaction_receipt env _ tx w') as [r w''] eqn:E3; simpl.
  eexists _, _. split; [by eapply sub_waited|].
  unfold after, set_world, log. simpl. by repeat rewrite <- app_assoc.
Qed.

Lemma functions_unfold c name args s :
  functions env c name args s
  = match function_error env c (mkContractFunction name args) with
    | Some exn => (Raise exn, s)
    | None => (Ok (mkContractFunction name args), s)
    end.
Proof.
  unfold functions, function_named, bound_to, function_error, bind, raise, ret.
  simpl. destruct (lookup_error env c name); [done|].
  by destruct (binding_error env c _).
Qed.

Lemma registerEvidence_unfold s c e h d i a :
  registerEvidence env c e h d i a s =
  let f := mkContractFunction "registerEvidence"
             [c; e; h; d; i; default (VStr "collected") a] in
  match function_error env (contract (coc s)) f with
  | Some exn => (Raise exn, s)
  | None => ending env s f
  end.
Proof.
  unfold registerEvidence, ending. cbv zeta. unfold bind at 1, get_self.
  unfold bind at 1. rewrite functions_unfold.
  by destruct (function_error env _ _).
Qed.

Lemma transferEvidence_unfold s c e t n a d :
  transferEvidence env c e t n a d s =
  match lookup_error env (contract (coc s)) "transferEvidence" with
  | Some exn => (Raise exn, s)
  | None =>
      match toChecksumAddress env t with
      | Raise exn => (Raise exn, s)
      | Ok to =>
          let f := mkContractFunction "transferEvidence"
                     [c; e; VStr to; n; default (VStr "transferred") a;
                      default (VStr "") d] in
          match binding_error env (contract (coc s)) f with
          | Some exn => (Raise exn, s)
          | None => ending env s f
          end
      end
  end.
Proof.
  unfold transferEvidence, ending. cbv zeta. unfold bind at 1, get_self.
  unfold bind at 1, function_named, raise, ret.
  destruct (lookup_error env _ _); [done|].
  unfold bind at 1, lift. destruct (toChecksumAddress env t); [|done].
  unfold bind at 1, bound_to, raise, ret. cbv zeta.
  by destruct (binding_error env _ _).
Qed.

Lemma deleteEvidence_unfold s c e :
  deleteEvidence env c e s =
  let f := mkContractFunction "deleteEvidence" [c; e] in
  match function_error env (contract (coc s)) f with
  | Some exn => (Raise exn, s)
  | None => ending env s f
  end.
Proof.
  unfold deleteEvidence, ending. unfold bind at 1, get_self.
  unfold bind at 1. rewrite functions_unfold.
  by destruct (function_error env _ _).
Qed.

Lemma ending_runs s f :
  exists added w,
    submission env s f (fst (ending env s f)) added w
    /\ snd (ending env s f) = after s added w.
Proof. apply nonce_transact_wait. Qed.

Lemma registerEvidence_runs s c e h d i a :
  sends_with_fresh_nonce env s (registerEvidence env c e h d i a s).
Proof.
  rewrite registerEvidence_unfold. simpl.
  destruct (function_error env _ _) as [exn|]; [left; by eexists|].
  right. eexists. apply nonce_transact_wait.
Qed.

Lemma transferEvidence_runs s c e t n a d :
  sends_with_fresh_nonce env s (transferEvidence env c e t n a d s).
Proof.
  rewrite transferEvidence_unfold.
  destruct (lookup_error env _ _) as [exn|]; [left; by eexists|].
  destruct (toChecksumAddress env t) as [to|exn]; [|left; by eexists].
  simpl. destruct (binding_error env _ _) as [exn|]; [left; by eexists|].
  right. eexists. apply nonce_transact_wait.
Qed.

Lemma deleteEvidence_runs s c e :
  sends_with_fresh_nonce env s (deleteEvidence env c e s).
Proof.
  rewrite deleteEvidence_unfold. simpl.
  destruct (function_error env _ _) as [exn|]; [left; by eexists|].
  right. eexists. apply nonce_transact_wait.
Qed.

(** In a submission the transaction comes right after the count. *)
Lemma submission_fresh s f r added w :
  submission env s f r added w -> every_submission_fresh env s (after s added w).
Proof.
  intros Hsub pre c' f' p post Ht. simpl in Ht. apply app_inv_head in Ht.
  destruct Hsub as [e0 w0 H1|nonce w0 e0 w1 H1 H2|nonce w0 tx w1 r w2 H1 H2 H3];
    destruct pre as [|x [|y [|z pre]]]; simpl in Ht; try discriminate;
    inversion Ht; subst; try (destruct pre; discriminate);
    simpl; repeat split; eauto.
Qed.

Lemma nothing_sent_fresh s : every_submission_fresh env s s.
Proof.
  intros pre c' f' p post Ht.
  rewrite <- (app_nil_r (trace s)) in Ht at 1. apply app_inv_head in Ht.
  destruct pre; discriminate.
Qed.

Lemma nothing_sent s pre c f p post :
  trace s <> trace s ++ pre ++ EvTransact c f p :: post.
Proof.
  intros Ht. rewrite <- (app_nil_r (trace s)) in Ht at 1. apply app_inv_head in Ht.
  destruct pre; discriminate.
Qed.

(** The transaction of a submission carries the function submitted. *)
Lemma submission_function s f r added w pre c' f' p post :
  submission env s f r added w ->
  added = pre ++ EvTransact c' f' p :: post -> f' = f.
Proof.
  intros Hsub Ht.
  destruct Hsub; destruct pre as [|x [|y [|z pre]]]; simpl in Ht;
    try discriminate; inversion Ht; subst; try (destruct pre; discriminate); done.
Qed.

Lemma sends_fresh s run :
  sends_with_fresh_nonce env s run -> every_submission_fresh env s (snd run).
Proof.
  intros [(e & ->)|(f & added & w & Hsub & ->)].
  - apply nothing_sent_fresh.
  - by eapply submission_fresh.
Qed.

(** C2: for each of registerEvidence, transferEvidence and
    deleteEvidence and every invocation: when getting the contract
    function raises (or, for a transfer, the validation of the recipient
    does), the method raises that exception and the state is as it was;
    otherwise the first remote call asks the node for the transaction
    count of the session account and, when it is answered, the next
    submits the function with these arguments from the session account
    with the count just returned as its nonce, in the world the count
    request left.  So every transaction a call submits is from the
    session account and comes right after the count request whose answer
    is its nonce. *)
Theorem mutations_fetch_nonce_then_send s :
  (forall c e h d i a,
     let f := mkContractFunction "registerEvidence"
                [c; e; h; d; i; default (VStr "collected") a] in
     let run := registerEvidence env c e h d i a s in
     match function_error env (contract (coc s)) f with
     | Some exn => run = (Raise exn, s)
     | None =>
         exists added w,
           submission env s f (fst run) added w /\ snd run = after s added w
     end
     /\ every_submission_fresh env s (snd run))
  /\ (forall c e t n a d,
        let run := transferEvidence env c e t n a d s in
        match lookup_error env (contract (coc s)) "transferEvidence" with
        | Some exn => run = (Raise exn, s)
        | None =>
            match toChecksumAddress env t with
            | Raise exn => run = (Raise exn, s)
            | Ok to =>
                let f := mkContractFunction "transferEvidence"
                           [c; e; VStr to; n; default (VStr "transferred") a;
                            default (VStr "") d] in
                match binding_error env (contract (coc s)) f with
                | Some exn => run = (Raise exn, s)
                | None =>
                    exists added w,
                      submission env s f (fst run) added w
                      /\ snd run = after s added w
                end
            end
        end
        /\ every_submission_fresh env s (snd run))
  /\ (forall c e,
        let f := mkContractFunction "deleteEvidence" [c; e] in
        let run := deleteEvidence env c e s in
        match function_error env (contract (coc s)) f with
        | Some exn => run = (Raise exn, s)
        | None =>
            exists added w,
              submission env s f (fst run) added w /\ snd run = after s added w
        end
        /\ every_submission_fresh env s (snd run)).
Proof.
  split; [|split].
  - intros c e h d i a f run. split; [|apply sends_fresh, registerEvidence_runs].
    subst run. rewrite registerEvidence_unfold. cbv zeta. fold f.
    destruct (function_error env _ f); [done|]. apply ending_runs.
  - intros c e t n a d run. split; [|apply sends_fresh, transferEvidence_runs].
    subst run. rewrite transferEvidence_unfold.
    destruct (lookup_error env _ _); [done|].
    destruct (toChecksumAddress env t); [|done]. cbv zeta.
    destruct (binding_error env _ _); [done|]. apply ending_runs.
  - intros c e f run. split; [|apply sends_fresh, deleteEvidence_runs].
    subst run. rewrite deleteEvidence_unfold. cbv zeta. fold f.
    destruct (function_error env _ f); [done|]. apply ending_runs.
Qed.

(** C5: a call of registerEvidence that returns has submitted the
    contract function registerEvidence, with the action "collected" when
    none was given, from the session account, has then waited for the
    receipt of that transaction, and returns the receipt. *)
Theorem registerEvidence_returns_receipt s c e h d i a rc s' :
  registerEvidence env c e h d i a s = (Ok rc, s') ->
  let f := mkContractFunction "registerEvidence"
             [c; e; h; d; i; default (VStr "collected") a] in
  exists nonce w tx w' w'',
    eth_get_transaction_count env (web3 (coc s)) (account (coc s)) (world s)
      = (Ok nonce, w)
    /\ eth_transact env (web3 (coc s)) (contract (coc s)) f
         (mkTxParams (account (coc s)) nonce) w = (Ok tx, w')
    /\ eth_wait_for_transaction_receipt env (web3 (coc s)) tx w' = (Ok rc, w'')
    /\ s' = after s
              [EvGetTransactionCount (account (coc s));
               EvTransact (contract (coc s)) f (mkTxParams (account (coc s)) nonce);
               EvWaitReceipt tx] w''.
Proof.
  intros H f. rewrite registerEvidence_unfold in H. simpl in H. fold f in H.
  destruct (function_error env _ f); [discriminate|].
  destruct (nonce_transact_wait s f) as (added & w & Hsub & Hs).
  fold (ending env s f) in Hsub, Hs. rewrite H in Hsub, Hs. simpl in Hsub, Hs.
  inversion Hsub; subst. eauto 10.
Qed.

(** C10: when the recipient address is rejected, transferEvidence raises
    with the state exactly as it was: nothing was added to the trace (no
    transaction count asked, no transaction submitted) and the world is
    unchanged.  What is raised is the error of the validation, or that of
    the lookup of the function when the lookup, which comes first,
    fails. *)
Theorem transferEvidence_rejects_before_nonce s c e t n a d exn :
  toChecksumAddress env t = Raise exn ->
  transferEvidence env c e t n a d s
  = (Raise match lookup_error env (contract (coc s)) "transferEvidence" with
           | Some first => first
           | None => exn
           end, s)
  /\ trace (snd (transferEvidence env c e t n a d s)) = trace s
  /\ world (snd (transferEvidence env c e t n a d s)) = world s.
Proof.
  intros H. rewrite transferEvidence_unfold, H.
  by destruct (lookup_error env _ _).
Qed.

(** C4, as amended: for a recipient address that address validation
    rejects, transferEvidence fails with the error validation raised when
    the function transferEvidence is found in the interface of the
    contract, and with the error of that lookup, which comes first, when
    it is not; and a call without action and description goes with
    "transferred" and the empty string: when nothing raises before, it
    submits the function with these two as its last arguments, and
    whatever transaction such a call submits carries them. *)
Theorem transferEvidence_invalid_address s c e n :
  (forall t exn a d,
     toChecksumAddress env t = Raise exn ->
     fst (transferEvidence env c e t n a d s)
     = Raise match lookup_error env (contract (coc s)) "transferEvidence" with
             | Some first => first
             | None => exn
             end)
  /\ (forall t to,
        lookup_error env (contract (coc s)) "transferEvidence" = None ->
        toChecksumAddress env t = Ok to ->
        binding_error env (contract (coc s))
          (mkContractFunction "transferEvidence"
             [c; e; VStr to; n; VStr "transferred"; VStr ""]) = None ->
        exists added w,
          submission env s
            (mkContractFunction "transferEvidence"
               [c; e; VStr to; n; VStr "transferred"; VStr ""])
            (fst (transferEvidence env c e t n None None s)) added w
          /\ snd (transferEvidence env c e t n None None s) = after s added w)
  /\ (forall t pre c' f' p post,
        trace (snd (transferEvidence env c e t n None None s))
        = trace s ++ pre ++ EvTransact c' f' p :: post ->
        exists to,
          toChecksumAddress env t = Ok to
          /\ f' = mkContractFunction "transferEvidence"
                    [c; e; VStr to; n; VStr "transferred"; VStr ""]).
Proof.
  split; [|split].
  - intros t exn a d H. rewrite transferEvidence_unfold, H.
    by destruct (lookup_error env _ _).
  - intros t to Hl Ht Hb. rewrite transferEvidence_unfold, Hl, Ht. cbv zeta.
    change (default (VStr "transferred") None) with (VStr "transferred").
    change (default (VStr "") None) with (VStr "").
    rewrite Hb. apply ending_runs.
  - intros t pre c' f' p post. rewrite transferEvidence_unfold.
    destruct (lookup_error env _ _); [intros Ht; by apply nothing_sent in Ht|].
    destruct (toChecksumAddress env t) as [to|exn];
      [|intros Ht; by apply nothing_sent in Ht].
    cbv zeta.
    change (default (VStr "transferred") None) with (VStr "transferred").
    change (default (VStr "") None) with (VStr "").
    destruct (binding_error env _ _); [intros Ht; by apply nothing_sent in Ht|].
    destruct (ending_runs s (mkContractFunction "transferEvidence"
                [c; e; VStr to; n; VStr "transferred"; VStr ""]))
      as (added & w & Hsub & ->).
    simpl. intros Ht. apply app_inv_head in Ht.
    exists to. split; [done|]. by eapply submission_function.
Qed.

End Mutations.

(** ** The read-only methods *)

Section Reads.

Context {W : Type}.
Variable env : Env W.
Implicit Types s : @State W.

(** C3, as amended: viewEvidence hands back whatever the read-only call
    of the contract function viewEvidence, made from the session account,
    gives: the value when it returns one, an empty record as any other,
    and the exception when it raises; when getting the function raises
    (its lookup or its binding to the arguments), viewEvidence raises
    that exception and makes no call.  It raises nothing else. *)
Theorem viewEvidence_passes_through s c e :
  viewEvidence env c e s
  = match function_error env (contract (coc s))
            (mkContractFunction "viewEvidence" [c; e]) with
    | Some exn => (Raise exn, s)
    | None =>
        let (r, w') :=
          eth_call env (web3 (coc s)) (contract (coc s))
            (mkContractFunction "viewEvidence" [c; e]) (account (coc s)) (world s) in
        (r, after s [EvCall (contract (coc s))
                       (mkContractFunction "viewEvidence" [c; e])
                       (account (coc s))] w')
    end.
Proof.
  unfold viewEvidence. unfold bind at 1, get_self. unfold bind at 1.
  rewrite functions_unfold.
  destruct (function_error env _ _); [done|].
  unfold call, remote. simpl. by destruct (eth_call env _ _ _ _ (world s)).
Qed.

Lemma getHistory_passes_through s c e r w' :
  function_error env (contract (coc s)) (mkContractFunction "getHistory" [c; e])
    = None ->
  eth_call env (web3 (coc s)) (contract (coc s))
    (mkContractFunction "getHistory" [c; e]) (account (coc s)) (world s) = (r, w') ->
  getHistory env c e s
  = (r, after s [EvCall (contract (coc s)) (mkContractFunction "getHistory" [c; e])
                   (account (coc s))] w').
Proof.
  intros Hf Hc. unfold getHistory. unfold bind at 1, get_self. unfold bind at 1.
  rewrite functions_unfold, Hf. unfold call, remote. simpl. by rewrite Hc.
Qed.

(** C7: getBalance asks the node for the balance of the session account
    when no address is given, and of the given address otherwise, and
    returns it in ether: the amount in wei over ten to the eighteenth. *)
Theorem getBalance_in_ether s wei w' :
  (0 <= wei < 2 ^ 256)%Z ->
  (eth_get_balance env (web3 (coc s)) (account (coc s)) (world s) = (Ok wei, w') ->
   getBalance env None s
   = (Ok (Qmake wei 1000000000000000000),
      after s [EvGetBalance (account (coc s))] w'))
  /\ (forall a addr,
        is_None a = false ->
        toChecksumAddress env a = Ok addr ->
        eth_get_balance env (web3 (coc s)) addr (world s) = (Ok wei, w') ->
        getBalance env (Some a) s
        = (Ok (Qmake wei 1000000000000000000), after s [EvGetBalance addr] w'))
  /\ Qeq (Qmake wei 1000000000000000000)
         (Qdiv (inject_Z wei) (inject_Z (10 ^ 18))).
Proof.
  intros [Hlo Hhi].
  assert (fromWei wei "ether" = Ok (Qmake wei 1000000000000000000)) as Hw.
  { unfold fromWei. simpl.
    destruct (wei <? 0)%Z eqn:E1; [lia|].
    destruct (2 ^ 256 <=? wei)%Z eqn:E2; [lia|]. done. }
  split; [|split].
  - intros Hb. unfold getBalance, bind, get_self, ret, remote, lift. simpl.
    rewrite Hb. simpl. by rewrite Hw.
  - intros a addr Ha Hc Hb. unfold getBalance, bind, get_self, ret, remote, lift.
    simpl. rewrite Ha, Hc. simpl. rewrite Hb. simpl. by rewrite Hw.
  - apply Qmake_Qdiv.
Qed.

End Reads.

(** ** The session object *)

Section Session.

Context {W : Type}.
Variable env : Env W.
Implicit Types s : @State W.

Lemma __init___fields http addr cfg acct self :
  __init__ env http addr cfg acct = Ok self ->
  exists abi_,
    web3 self = http
    /\ toChecksumAddress env addr = Ok (contract_address self)
    /\ json_load_file env cfg = Ok (contract_config self)
    /\ toChecksumAddress env acct = Ok (account self)
    /\ subscript_str (contract_config self) "abi" = Ok abi_
    /\ contract self = mkContract (contract_address self) abi_.
Proof.
  unfold __init__, rbind. intros H.
  destruct (toChecksumAddress env addr) as [a|]; [|discriminate].
  destruct (json_load_file env cfg) as [j|]; [|discriminate].
  destruct (toChecksumAddress env acct) as [u|]; [|discriminate].
  destruct (subscript_str j "abi") as [b|] eqn:Eb; [|discriminate].
  destruct (contract_error env a b); [discriminate|].
  inversion H; subst; simpl. by exists b.
Qed.

(** C9: the constructor gives the session object its fields, and no
    method of the class, nor the upload function, nor the console loop,
    changes the object. *)
Theorem session_fields_fixed s :
  (forall http addr cfg acct self,
     __init__ env http addr cfg acct = Ok self ->
     exists abi_,
       web3 self = http
       /\ toChecksumAddress env addr = Ok (contract_address self)
       /\ json_load_file env cfg = Ok (contract_config self)
       /\ toChecksumAddress env acct = Ok (account self)
       /\ subscript_str (contract_config self) "abi" = Ok abi_
       /\ contract self = mkContract (contract_address self) abi_)
  /\ coc (snd (getAccounts env s)) = coc s
  /\ (forall a, coc (snd (getBalance env a s)) = coc s)
  /\ (forall c e h d i a, coc (snd (registerEvidence env c e h d i a s)) = coc s)
  /\ (forall c e t n a d, coc (snd (transferEvidence env c e t n a d s)) = coc s)
  /\ (forall c e, coc (snd (deleteEvidence env c e s)) = coc s)
  /\ (forall c e, coc (snd (viewEvidence env c e s)) = coc s)
  /\ (forall c e, coc (snd (getHistory env c e s)) = coc s)
  /\ coc (snd (getPrivateKey env s)) = coc s
  /\ coc (snd (getAllEvidenceIds env s)) = coc s
  /\ (forall path, coc (snd (upload_file_to_ipfs env path s)) = coc s)
  /\ (forall fuel, coc (snd (main_loop env fuel s)) = coc s).
Proof.
  split; [apply __init___fields|].
  repeat split; intros; apply same_session.
  - apply stable_getAccounts.
  - apply stable_getBalance.
  - apply stable_registerEvidence.
  - apply stable_transferEvidence.
  - apply stable_deleteEvidence.
  - apply stable_viewEvidence.
  - apply stable_getHistory.
  - apply stable_getPrivateKey.
  - apply stable_getAllEvidenceIds.
  - apply stable_upload_file_to_ipfs.
  - apply stable_main_loop.
Qed.

End Session.

(** ** Console actions, step by step *)

Section Console.

Context {W : Type}.
Variable env : Env W.
Implicit Types s : @State W.

Lemma bind_input {B} prompt (k : string -> @M W B) s l rest :
  stdin s = l :: rest ->
  bind (input prompt) k s = k l (answered [prompt] rest s).
Proof. intros E. unfold bind, input. simpl. by rewrite E. Qed.

Lemma answered_again ps1 ps2 r1 r2 s :
  answered ps2 r2 (answered ps1 r1 s) = answered (ps1 ++ ps2) r2 s.
Proof. unfold answered. simpl. by rewrite fold_left_app. Qed.

Lemma bind_raises {A B} (m : @M W A) (k : A -> @M W B) s exn s1 :
  m s = (Raise exn, s1) -> bind m k s = (Raise exn, s1).
Proof. intros H. unfold bind. by rewrite H. Qed.

Lemma try_except_catches {A} (body : @M W A) handler s exn s1 :
  body s = (Raise exn, s1) -> is_Exception exn = true ->
  try_except body handler s = handler exn s1.
Proof. intros H Hx. unfold try_except. by rewrite H, Hx. Qed.

(** Reads the answers to the prompts of an option one after the other. *)
Ltac answer E :=
  repeat (erewrite bind_input; [|first [exact E | reflexivity]]);
  repeat rewrite answered_again; simpl app.

Lemma upload_body_trace path s :
  exists added,
    trace (snd (upload_body env path s)) = trace s ++ added
    /\ filter is_ledger_call added = [].
Proof.
  unfold upload_body, bind, remote, lift, print. simpl.
  destruct (ipfs_connect env (world s)) as [[[]|exn] w1]; simpl.
  2:{ by exists [EvIpfsConnect]. }
  destruct (ipfs_add env path w1) as [[res|exn] w2]; simpl.
  2:{ exists [EvIpfsConnect; EvIpfsAdd path]. by rewrite <- app_assoc. }
  exists [EvIpfsConnect; EvIpfsAdd path].
  destruct (subscript_str res "Hash"); simpl; by rewrite <- app_assoc.
Qed.

Lemma upload_file_to_ipfs_trace path s :
  exists added,
    trace (snd (upload_file_to_ipfs env path s)) = trace s ++ added
    /\ filter is_ledger_call added = [].
Proof.
  destruct (upload_body_trace path s) as (added & Ht & Hf).
  exists added. split; [|done]. unfold upload_file_to_ipfs, try_except.
  destruct (upload_body env path s) as [[v|exn] s1]; simpl in *; [done|].
  by destruct (is_Exception exn).
Qed.

Lemma option_1_unfold s c e h d path rest :
  stdin s = c :: e :: h :: d :: path :: rest ->
  option_1 env s
  = bind (upload_file_to_ipfs env path) (register_after_upload env c e h d)
      (answered prompts_1 rest s).
Proof. intros E. unfold option_1. by answer E. Qed.

(** C1: whenever the body of upload_file_to_ipfs raises an Exception
    (the daemon cannot be reached, the file cannot be added, the answer
    has no hash), the function prints the cause and returns None; and in
    option 1 of the console loop, when the upload returned None, the
    option ends after the failure message: the state is the one the
    upload left plus that message, and no call was made to the ledger. *)
Theorem upload_failure_gives_None_and_no_registration :
  (forall path s exn s1,
     upload_body env path s = (Raise exn, s1) ->
     is_Exception exn = true ->
     upload_file_to_ipfs env path s
     = (Ok VNone, emit [Lit "IPFS upload error: "; FmtExn exn] s1))
  /\ (forall path s exn w,
        ipfs_connect env (world s) = (Raise exn, w) ->
        is_Exception exn = true ->
        fst (upload_file_to_ipfs env path s) = Ok VNone)
  /\ (forall path s u w exn w',
        ipfs_connect env (world s) = (Ok u, w) ->
        ipfs_add env path w = (Raise exn, w') ->
        is_Exception exn = true ->
        fst (upload_file_to_ipfs env path s) = Ok VNone)
  /\ (forall s c e h d path rest s1,
        stdin s = c :: e :: h :: d :: path :: rest ->
        upload_file_to_ipfs env path (answered prompts_1 rest s) = (Ok VNone, s1) ->
        option_1 env s
        = (Ok tt,
           emit [Lit "Failed to upload file to IPFS. Cannot register evidence."] s1)
        /\ filter is_ledger_call (trace (snd (option_1 env s)))
           = filter is_ledger_call (trace s)).
Proof.
  assert (forall path s exn s1,
     upload_body env path s = (Raise exn, s1) ->
     is_Exception exn = true ->
     upload_file_to_ipfs env path s
     = (Ok VNone, emit [Lit "IPFS upload error: "; FmtExn exn] s1)) as Hbody.
  { intros path s exn s1 H Hx. unfold upload_file_to_ipfs.
    by rewrite (try_except_catches _ _ _ _ _ H Hx). }
  split; [exact Hbody|]. split; [|split].
  - intros path s exn w H Hx.
    erewrite Hbody; [done| |exact Hx].
    unfold upload_body, bind, remote. simpl. by rewrite H.
  - intros path s u w exn w' H1 H2 Hx.
    erewrite Hbody; [done| |exact Hx].
    unfold upload_body, bind, remote. simpl. rewrite H1. simpl. by rewrite H2.
  - intros s c e h d path rest s1 E H.
    rewrite (option_1_unfold _ _ _ _ _ _ _ E).
    unfold bind. rewrite H. simpl. split; [done|].
    destruct (upload_file_to_ipfs_trace path (answered prompts_1 rest s))
      as (added & Ht & Hf).
    rewrite H in Ht. simpl in Ht. rewrite Ht, filter_app, Hf. by rewrite app_nil_r.
Qed.

Lemma option_1_reports_upload s c e h d path rest exn s1 :
  stdin s = c :: e :: h :: d :: path :: rest ->
  upload_body env path (answered prompts_1 rest s) = (Raise exn, s1) ->
  is_Exception exn = true ->
  option_1 env s
  = (Ok tt,
     emit [Lit "Failed to upload file to IPFS. Cannot register evidence."]
       (emit [Lit "IPFS upload error: "; FmtExn exn] s1)).
Proof.
  intros E H Hx. rewrite (option_1_unfold _ _ _ _ _ _ _ E).
  unfold bind, upload_file_to_ipfs. by rewrite (try_except_catches _ _ _ _ _ H Hx).
Qed.

Lemma option_1_reports_register s c e h d path rest hash s1 exn s2 :
  stdin s = c :: e :: h :: d :: path :: rest ->
  upload_file_to_ipfs env path (answered prompts_1 rest s) = (Ok hash, s1) ->
  is_None hash = false ->
  registerEvidence env (VStr c) (VStr e) (VStr h) (VStr d) hash
    (Some (VStr "collected")) s1 = (Raise exn, s2) ->
  is_Exception exn = true ->
  option_1 env s = (Ok tt, emit [Lit "Error registering evidence: "; FmtExn exn] s2).
Proof.
  intros E Hu Hn H Hx. rewrite (option_1_unfold _ _ _ _ _ _ _ E).
  unfold bind at 1. rewrite Hu. unfold register_after_upload. rewrite Hn.
  by rewrite (try_except_catches _ _ _ _ _ (bind_raises _ _ _ _ _ H) Hx).
Qed.

Lemma option_2_reports s c e t n d rest exn s1 :
  stdin s = c :: e :: t :: n :: d :: rest ->
  transferEvidence env (VStr c) (VStr e) (VStr t) (VStr n)
    (Some (VStr "transferred")) (Some (VStr d)) (answered prompts_2 rest s)
    = (Raise exn, s1) ->
  is_Exception exn = true ->
  option_2 env s = (Ok tt, emit [Lit "Error transferring evidence: "; FmtExn exn] s1).
Proof.
  intros E H Hx. unfold option_2. answer E.
  by rewrite (try_except_catches _ _ _ _ _ (bind_raises _ _ _ _ _ H) Hx).
Qed.

Lemma option_3_reports s c e rest exn s1 :
  stdin s = c :: e :: rest ->
  deleteEvidence env (VStr c) (VStr e) (answered prompts_3 rest s) = (Raise exn, s1) ->
  is_Exception exn = true ->
  option_3 env s = (Ok tt, emit [Lit "Error deleting evidence: "; FmtExn exn] s1).
Proof.
  intros E H Hx. unfold option_3. answer E.
  by rewrite (try_except_catches _ _ _ _ _ (bind_raises _ _ _ _ _ H) Hx).
Qed.

Lemma option_4_reports s c e rest exn s1 :
  stdin s = c :: e :: rest ->
  viewEvidence env (VStr c) (VStr e) (answered prompts_3 rest s) = (Raise exn, s1) ->
  is_Exception exn = true ->
  option_4 env s = (Ok tt, emit [Lit "Error viewing evidence: "; FmtExn exn] s1).
Proof.
  intros E H Hx. unfold option_4. answer E.
  by rewrite (try_except_catches _ _ _ _ _ (bind_raises _ _ _ _ _ H) Hx).
Qed.

Lemma option_5_reports s c e rest exn s1 :
  stdin s = c :: e :: rest ->
  getHistory env (VStr c) (VStr e) (answered prompts_3 rest s) = (Raise exn, s1) ->
  is_Exception exn = true ->
  option_5 env s = (Ok tt, emit [Lit "Error fetching history: "; FmtExn exn] s1).
Proof.
  intros E H Hx. unfold option_5. answer E.
  by rewrite (try_except_catches _ _ _ _ _ (bind_raises _ _ _ _ _ H) Hx).
Qed.

Lemma option_6_reports s exn s1 :
  getAllEvidenceIds env s = (Raise exn, s1) ->
  is_Exception exn = true ->
  option_6 env s = (Ok tt, emit [Lit "Error listing evidence: "; FmtExn exn] s1).
Proof.
  intros H Hx. unfold option_6.
  by rewrite (try_except_catches _ _ _ _ _ (bind_raises _ _ _ _ _ H) Hx).
Qed.

(** Every choice but "0" keeps the loop going, unless the input ends or
    something that is not an [Exception] is raised. *)
Lemma dispatch_goes_on choice s :
  choice <> "0" ->
  match dispatch env choice s with
  | (Ok stop, _) => stop = false
  | (Raise exn, s') => (exn = EOFError /\ stdin s' = []) \/ is_Exception exn = false
  end.
Proof.
  intros Hc. unfold dispatch.
  repeat match goal with
  | |- context [if String.eqb choice ?k then _ else _] =>
      destruct (String.eqb_spec choice k); [try congruence|]
  end; try done.
  all: unfold bind, ret;
    match goal with
    | |- context [option_1 env ?st] => pose proof (contained_option_1 env st) as C
    | |- context [option_2 env ?st] => pose proof (contained_option_2 env st) as C
    | |- context [option_3 env ?st] => pose proof (contained_option_3 env st) as C
    | |- context [option_4 env ?st] => pose proof (contained_option_4 env st) as C
    | |- context [option_5 env ?st] => pose proof (contained_option_5 env st) as C
    | |- context [option_6 env ?st] => pose proof (contained_option_6 env st) as C
    end;
    match type of C with
    | context [match ?r with _ => _ end] => destruct r as [[[]|exn] s']
    end; done.
Qed.

Lemma option_0_breaks fuel s l rest :
  stdin s = l :: rest -> strip l = "0" ->
  exists s0,
    main_loop env (S fuel) s = (Ok (Some tt), emit [Lit "Exiting CLI."] s0)
    /\ stdin s0 = rest /\ world s0 = world s /\ trace s0 = trace s.
Proof.
  intros E Hs. destruct (iteration_reads env s l rest E) as (s0 & Hi & E0 & _ & Hw & Ht).
  exists s0. split; [|done]. simpl. unfold bind at 1. rewrite Hi, Hs. done.
Qed.

End Console.

(** ** The console loop as a whole *)

Section Loop.

Context {W : Type}.
Variable env : Env W.
Implicit Types s : @State W.

Lemma main_cli_break fuel w lines session s' :
  load_session env = Ok session ->
  main_loop env fuel (mkState w session [] lines []) = (Ok (Some tt), s') ->
  main_cli env fuel w lines = (ExitSuccess, Some s')
  /\ exit_code (fst (main_cli env fuel w lines)) = Some 0.
Proof. intros Hl Hm. unfold main_cli. by rewrite Hl, Hm. Qed.

Lemma main_cli_exit_0 fuel w l rest session :
  load_session env = Ok session -> strip l = "0" ->
  fst (main_cli env (S fuel) w (l :: rest)) = ExitSuccess
  /\ exit_code (fst (main_cli env (S fuel) w (l :: rest))) = Some 0.
Proof.
  intros Hl Hs. unfold main_cli. rewrite Hl.
  destruct (option_0_breaks env fuel (mkState w session [] (l :: rest) []) l rest)
    as (s0 & -> & _); done.
Qed.


End Loop.

(** ** The contract keeps its history in order *)

(** What one transaction does to the ledger: block time does not go
    back, no record disappears, and the histories are as they were or one
    of them, of a registered record, got one entry stamped with the new
    block time at its end. *)
Lemma apply_tx_shape sender f now l l' :
  apply_tx sender f now l = Ok l' ->
  (clock l <= clock l')%Z
  /\ (forall k, records l' !! k = None -> records l !! k = None)
  /\ (histories l' = histories l
      \/ exists k0 h,
           histories l' = <[k0 := history l k0 ++ [h]]> (histories l)
           /\ h_timestamp h = clock l' /\ is_Some (records l' !! k0)).
Proof.
  unfold apply_tx, execute, rbind. intros H.
  destruct (now <? clock l)%Z eqn:En; [discriminate|]. apply Z.ltb_ge in En.
  destruct (str_args (fn_args f)) as [[|c [|e [|a3 [|a4 [|a5 [|a6 [|]]]]]]]|];
    try discriminate.
  - destruct (String.eqb (fn_name f) "deleteEvidence"); [|discriminate].
    destruct (records l !! (c, e)) as [r|] eqn:Er; [|discriminate].
    inversion H; subst; simpl. split; [done|]. split; [|by left].
    intros k Hk. by apply lookup_insert_None in Hk as [? _].
  - destruct (String.eqb (fn_name f) "registerEvidence").
    + destruct (records l !! (c, e)) as [r|] eqn:Er; [discriminate|].
      inversion H; subst; simpl. split; [done|]. split.
      * intros k Hk. by apply lookup_insert_None in Hk as [? _].
      * right. eexists (c, e), _. split; [done|]. split; [done|].
        rewrite lookup_insert_eq. by eexists.
    + destruct (String.eqb (fn_name f) "transferEvidence"); [|discriminate].
      destruct (records l !! (c, e)) as [r|] eqn:Er; [|discriminate].
      inversion H; subst; simpl. split; [done|]. split.
      * intros k Hk. by apply lookup_insert_None in Hk as [? _].
      * right. eexists (c, e), _. split; [done|]. split; [done|].
        rewrite lookup_insert_eq. by eexists.
Qed.

Lemma ledger_inv_genesis t0 : ledger_inv (genesis t0).
Proof.
  split; intros k; unfold history; simpl; rewrite ?lookup_empty; simpl;
    try done; constructor.
Qed.

Lemma ledger_inv_apply_tx sender f now l l' :
  apply_tx sender f now l = Ok l' -> ledger_inv l -> ledger_inv l'.
Proof.
  intros H [I1 I2 I3]. apply apply_tx_shape in H as (Hc & Hr & [Hh|Hh]).
  - split; intros k; unfold history in *; rewrite Hh.
    + intros Hk. apply I1, Hr, Hk.
    + eapply Forall_impl; [apply I2|]. simpl. intros; lia.
    + apply I3.
  - destruct Hh as (k0 & h & Hh & Ht & Hs).
    split; intros k; unfold history in *; rewrite Hh.
    + intros Hk. assert (k0 <> k) as Hne by (intros ->; rewrite Hk in Hs; by destruct Hs).
      rewrite lookup_insert_ne by done. apply I1, Hr, Hk.
    + destruct (decide (k0 = k)) as [->|Hne].
      * rewrite lookup_insert_eq. simpl. apply Forall_app. split.
        -- eapply Forall_impl; [apply I2|]. simpl. intros; lia.
        -- repeat constructor. lia.
      * rewrite lookup_insert_ne by done.
        eapply Forall_impl; [apply I2|]. simpl. intros; lia.
    + destruct (decide (k0 = k)) as [->|Hne].
      * rewrite lookup_insert_eq. simpl. apply StronglySorted_app_2.
        -- intros x1 x2 H1 H2. apply list_elem_of_singleton in H2 as ->.
           unfold by_time. rewrite Ht.
           specialize (I2 k). rewrite Forall_forall in I2.
           specialize (I2 _ H1). simpl in I2. lia.
        -- apply I3.
        -- repeat constructor.
      * rewrite lookup_insert_ne by done. apply I3.
Qed.

Lemma reachable_inv l : reachable l -> ledger_inv l.
Proof.
  induction 1 as [t0|l sender f now l' _ IH H].
  - apply ledger_inv_genesis.
  - by eapply ledger_inv_apply_tx.
Qed.

(** A transaction only ever adds at the end of a history. *)
Lemma history_append_only sender f now l l' k :
  apply_tx sender f now l = Ok l' -> history l k `prefix_of` history l' k.
Proof.
  intros H. apply apply_tx_shape in H as (_ & _ & [Hh|(k0 & h & Hh & _)]);
    unfold history in *; rewrite Hh; [done|].
  destruct (decide (k0 = k)) as [->|Hne].
  - rewrite lookup_insert_eq. simpl. by apply prefix_app_r.
  - by rewrite lookup_insert_ne.
Qed.

(** C6: against the contract of the specification, getHistory returns
    the history entries of the pair as the contract holds them; on every
    ledger that transactions can produce these are in the order of their
    timestamps, oldest first, and a later transaction only adds after
    them; for a pair that has no record the result is the empty sequence,
    not an error. *)
Theorem getHistory_oldest_first (lib : Library) (s : @State World) (c e : string) :
  reachable (ledger (world s)) ->
  getHistory (node_env lib) (VStr c) (VStr e) s
  = (Ok (VList (map entry_val (history (ledger (world s)) (c, e)))),
     after s [EvCall (contract (coc s))
                (mkContractFunction "getHistory" [VStr c; VStr e])
                (account (coc s))] (world s))
  /\ StronglySorted by_time (history (ledger (world s)) (c, e))
  /\ (forall sender f now l',
        apply_tx sender f now (ledger (world s)) = Ok l' ->
        history (ledger (world s)) (c, e) `prefix_of` history l' (c, e))
  /\ (records (ledger (world s)) !! (c, e) = None ->
      fst (getHistory (node_env lib) (VStr c) (VStr e) s) = Ok (VList [])).
Proof.
  intros Hr. apply reachable_inv in Hr as [I1 I2 I3].
  assert (getHistory (node_env lib) (VStr c) (VStr e) s
          = (Ok (VList (map entry_val (history (ledger (world s)) (c, e)))),
             after s [EvCall (contract (coc s))
                        (mkContractFunction "getHistory" [VStr c; VStr e])
                        (account (coc s))] (world s))) as Hg.
  { by apply getHistory_passes_through. }
  split; [exact Hg|]. split; [apply I3|]. split.
  - intros sender f now l' H. by eapply history_append_only.
  - intros Hk. rewrite Hg. simpl. unfold history. by rewrite (I1 _ Hk).
Qed.

(** Replaying transactions from a reachable ledger stays reachable. *)
Lemma reachable_replay txs : forall l, reachable l -> reachable (replay txs l).
Proof.
  induction txs as [|[sender f] txs IH]; intros l Hl; simpl; [done|].
  apply IH. destruct (apply_tx sender f (clock l + 1) l) as [l'|] eqn:E; [|done].
  by eapply reachable_tx.
Qed.

(** ** The claims at concrete inputs *)

(** Two mutations in a row on the example node: each asks for the count
    anew, so the second is sent with the next nonce, and both are mined. *)
Example two_mutations_two_nonces :
  let run :=
    bind (registerEvidence example_env (VStr "CASE1") (VStr "EVID1") (VStr "Alice")
            (VStr "found at scene") (VStr "bafy123") None)
      (fun _ => transferEvidence example_env (VStr "CASE1") (VStr "EVID1") (VStr bob)
                  (VStr "Bob") None None)
      (example_state []) in
  omap submitted_nonce (trace (snd run)) = [0; 1]%Z
  /\ fst run = Ok (mkReceipt "0x1700000002" 1700000002 1).
Proof. split; reflexivity. Qed.

(** C3, as stated, fails: for a pair that was never registered the
    contract answers the empty record, and viewEvidence returns it; no
    error is raised. *)
Lemma viewEvidence_returns_empty_record :
  function_error abi_env (contract custody_session)
    (mkContractFunction "viewEvidence" [VStr "CASE1"; VStr "EVID1"]) = None
  /\ fst (eth_call abi_env (web3 custody_session) (contract custody_session)
            (mkContractFunction "viewEvidence" [VStr "CASE1"; VStr "EVID1"])
            (account custody_session) example_world) = Ok empty_record
  /\ fst (viewEvidence abi_env (VStr "CASE1") (VStr "EVID1") custody_state)
     = Ok empty_record
  /\ forall exn,
       fst (viewEvidence abi_env (VStr "CASE1") (VStr "EVID1") custody_state)
       <> Raise exn.
Proof.
  split; [reflexivity|]. split; [reflexivity|]. split; [reflexivity|].
  intros exn. discriminate.
Qed.

Lemma viewEvidence_passes_through_witness :
  viewEvidence abi_env (VStr "CASE1") (VStr "EVID1") custody_state
  = (Ok empty_record,
     after custody_state
       [EvCall (contract custody_session)
          (mkContractFunction "viewEvidence" [VStr "CASE1"; VStr "EVID1"]) alice]
       example_world)
  /\ viewEvidence abi_env (VStr "CASE1") (VStr "EVID1")
       (mkState example_world
          (mkChainOfCustody (VStr "http://127.0.0.1:8545") deployed
             (VDict [("abi", VList [])]) alice (mkContract deployed (VList [])))
          [] [] [])
     = (Raise (Exc "NoABIFunctionsFound"
                 "The abi for this contract contains no function definitions."),
        mkState example_world
          (mkChainOfCustody (VStr "http://127.0.0.1:8545") deployed
             (VDict [("abi", VList [])]) alice (mkContract deployed (VList [])))
          [] [] []).
Proof.
  split.
  - rewrite (viewEvidence_passes_through abi_env custody_state). reflexivity.
  - rewrite (viewEvidence_passes_through abi_env). reflexivity.
Defined.

Lemma upload_failure_witness :
  is_Exception (Exc "FileNotFoundError" "missing.jpg") = true
  /\ fst (upload_file_to_ipfs example_env "missing.jpg" (example_state [])) = Ok VNone
  /\ fst (option_1 example_env
            (example_state ["CASE1"; "EVID1"; "Alice"; "found at scene"; "missing.jpg"]))
     = Ok tt
  /\ filter is_ledger_call
       (trace (snd (option_1 example_env
          (example_state ["CASE1"; "EVID1"; "Alice"; "found at scene"; "missing.jpg"]))))
     = [].
Proof.
  destruct (upload_failure_gives_None_and_no_registration example_env)
    as (H1 & H2 & H3 & H4).
  split; [reflexivity|]. split.
  - eapply H3; reflexivity.
  - edestruct (H4 (example_state
        ["CASE1"; "EVID1"; "Alice"; "found at scene"; "missing.jpg"]))
      as [Ha Hb]; [reflexivity|reflexivity|].
    rewrite Hb. rewrite Ha. split; reflexivity.
Defined.

(** C4, as stated, fails: on an interface without transferEvidence a
    transfer to a malformed address fails with the error of the lookup of
    the function, not with that of the validation of the address. *)
Lemma transferEvidence_lookup_error_first :
  toChecksumAddress abi_env (VStr "nothex")
  = Raise (Exc "ValueError" "Unknown format, attempted to normalize")
  /\ fst (transferEvidence abi_env (VStr "CASE1") (VStr "EVID1") (VStr "nothex")
            (VStr "Bob") None None reader_state)
     = Raise (Exc "ABIFunctionNotFound" "transferEvidence")
  /\ fst (transferEvidence abi_env (VStr "CASE1") (VStr "EVID1") (VStr "nothex")
            (VStr "Bob") None None reader_state)
     <> Raise (Exc "ValueError" "Unknown format, attempted to normalize").
Proof. split; [reflexivity|]. split; [reflexivity|discriminate]. Qed.

Lemma transferEvidence_invalid_address_witness :
  toChecksumAddress abi_env (VStr "nothex")
  = Raise (Exc "ValueError" "Unknown format, attempted to normalize")
  /\ fst (transferEvidence abi_env (VStr "CASE1") (VStr "EVID1") (VStr "nothex")
            (VStr "Bob") None None custody_state)
     = Raise (Exc "ValueError" "Unknown format, attempted to normalize")
  /\ toChecksumAddress abi_env (VStr bob) = Ok bob
  /\ (exists added w,
        submission abi_env custody_state transfer_case1
          (fst (transferEvidence abi_env (VStr "CASE1") (VStr "EVID1") (VStr bob)
                  (VStr "Bob") None None custody_state)) added w
        /\ snd (transferEvidence abi_env (VStr "CASE1") (VStr "EVID1") (VStr bob)
                  (VStr "Bob") None None custody_state)
           = after custody_state added w)
  /\ exists to,
       toChecksumAddress abi_env (VStr bob) = Ok to
       /\ transfer_case1
          = mkContractFunction "transferEvidence"
              [VStr "CASE1"; VStr "EVID1"; VStr to; VStr "Bob"; VStr "transferred";
               VStr ""].
Proof.
  destruct (transferEvidence_invalid_address abi_env custody_state
              (VStr "CASE1") (VStr "EVID1") (VStr "Bob")) as (H1 & H2 & H3).
  split; [reflexivity|]. split.
  { apply (H1 (VStr "nothex") _ None None). reflexivity. }
  split; [reflexivity|]. split.
  { apply (H2 (VStr bob) bob); reflexivity. }
  apply (H3 (VStr bob) [EvGetTransactionCount alice] (contract custody_session)
            transfer_case1 (mkTxParams alice 0) []).
  reflexivity.
Defined.

Lemma transferEvidence_rejects_before_nonce_witness :
  toChecksumAddress abi_env (VStr "nothex")
  = Raise (Exc "ValueError" "Unknown format, attempted to normalize")
  /\ transferEvidence abi_env (VStr "CASE1") (VStr "EVID1") (VStr "nothex")
       (VStr "Bob") None None custody_state
     = (Raise (Exc "ValueError" "Unknown format, attempted to normalize"),
        custody_state)
  /\ transferEvidence abi_env (VStr "CASE1") (VStr "EVID1") (VStr "nothex")
       (VStr "Bob") None None reader_state
     = (Raise (Exc "ABIFunctionNotFound" "transferEvidence"), reader_state).
Proof.
  split; [reflexivity|]. split.
  - apply (transferEvidence_rejects_before_nonce abi_env custody_state
             (VStr "CASE1") (VStr "EVID1") (VStr "nothex") (VStr "Bob") None None).
    reflexivity.
  - apply (transferEvidence_rejects_before_nonce abi_env reader_state
             (VStr "CASE1") (VStr "EVID1") (VStr "nothex") (VStr "Bob") None None
             (Exc "ValueError" "Unknown format, attempted to normalize")).
    reflexivity.
Defined.

Lemma mutations_fetch_nonce_then_send_witness :
  (exists added w,
     submission abi_env custody_state register_case1
       (fst (registerEvidence abi_env (VStr "CASE1") (VStr "EVID1") (VStr "Alice")
               (VStr "found at scene") (VStr "bafy123") None custody_state)) added w
     /\ snd (registerEvidence abi_env (VStr "CASE1") (VStr "EVID1") (VStr "Alice")
               (VStr "found at scene") (VStr "bafy123") None custody_state)
        = after custody_state added w)
  /\ every_submission_fresh abi_env custody_state
       (snd (registerEvidence abi_env (VStr "CASE1") (VStr "EVID1") (VStr "Alice")
               (VStr "found at scene") (VStr "bafy123") None custody_state))
  /\ trace (snd (registerEvidence abi_env (VStr "CASE1") (VStr "EVID1") (VStr "Alice")
                   (VStr "found at scene") (VStr "bafy123") None custody_state))
     = [EvGetTransactionCount alice;
        EvTransact (contract custody_session) register_case1 (mkTxParams alice 0);
        EvWaitReceipt "0x1700000001"]
  /\ deleteEvidence abi_env (VStr "CASE1") (VStr "EVID1") reader_state
     = (Raise (Exc "ABIFunctionNotFound" "deleteEvidence"), reader_state).
Proof.
  destruct (mutations_fetch_nonce_then_send abi_env custody_state) as (Hr & _ & _).
  destruct (Hr (VStr "CASE1") (VStr "EVID1") (VStr "Alice") (VStr "found at scene")
              (VStr "bafy123") None) as [Hrun Hfresh].
  destruct (mutations_fetch_nonce_then_send abi_env reader_state) as (_ & _ & Hd).
  destruct (Hd (VStr "CASE1") (VStr "EVID1")) as [Hdel _].
  split; [exact Hrun|]. split; [exact Hfresh|]. split; [reflexivity|exact Hdel].
Defined.

Lemma registerEvidence_returns_receipt_witness :
  exists nonce w tx w' w'',
    eth_get_transaction_count example_env (web3 example_session) alice example_world
      = (Ok nonce, w)
    /\ eth_transact example_env (web3 example_session) (contract example_session)
         register_case1 (mkTxParams alice nonce) w = (Ok tx, w')
    /\ eth_wait_for_transaction_receipt example_env (web3 example_session) tx w'
       = (Ok (mkReceipt "0x1700000001" 1700000001 1), w'')
    /\ snd (registerEvidence example_env (VStr "CASE1") (VStr "EVID1") (VStr "Alice")
              (VStr "found at scene") (VStr "bafy123") None (example_state []))
       = after (example_state [])
           [EvGetTransactionCount alice;
            EvTransact (contract example_session) register_case1 (mkTxParams alice nonce);
            EvWaitReceipt tx] w''.
Proof.
  apply (registerEvidence_returns_receipt example_env (example_state [])
           (VStr "CASE1") (VStr "EVID1") (VStr "Alice") (VStr "found at scene")
           (VStr "bafy123") None).
  vm_compute. reflexivity.
Defined.

Lemma getHistory_oldest_first_witness :
  fst (getHistory example_env (VStr "CASE1") (VStr "EVID1")
         (mkState
            (mkWorld (replay [(alice, register_case1); (alice, transfer_case1)]
                        (genesis 1700000000)) ∅ ∅ ∅ [] true ∅)
            example_session [] [] []))
  = Ok (VList
          [VList [VStr alice; VStr "Alice"; VStr "collected"; VStr "found at scene";
                  VInt 1700000001];
           VList [VStr bob; VStr "Bob"; VStr "transferred"; VStr "";
                  VInt 1700000002]]).
Proof.
  destruct (getHistory_oldest_first example_lib
              (mkState
                 (mkWorld (replay [(alice, register_case1); (alice, transfer_case1)]
                             (genesis 1700000000)) ∅ ∅ ∅ [] true ∅)
                 example_session [] [] []) "CASE1" "EVID1") as (H & _ & _ & _).
  - apply reachable_replay. constructor.
  - unfold example_env. rewrite H. reflexivity.
Defined.

Lemma getBalance_in_ether_witness :
  getBalance example_env None (example_state [])
  = (Ok (Qmake 2500000000000000000 1000000000000000000),
     after (example_state []) [EvGetBalance alice] example_world)
  /\ Qeq (Qmake 2500000000000000000 1000000000000000000) (Qmake 5 2).
Proof.
  destruct (getBalance_in_ether example_env (example_state [])
              2500000000000000000 example_world) as (H1 & _ & _).
  - split; [lia|reflexivity].
  - split; [apply H1; reflexivity|reflexivity].
Defined.

Lemma session_fields_fixed_witness :
  __init__ example_env (VStr "http://127.0.0.1:8545") (VStr deployed)
    "../build/contracts/EvidenceChainOfCustody.json" (VStr alice)
  = Ok example_session
  /\ coc (snd (registerEvidence example_env (VStr "CASE1") (VStr "EVID1") (VStr "Alice")
                 (VStr "found at scene") (VStr "bafy123") None (example_state [])))
     = example_session.
Proof.
  split; [reflexivity|].
  apply (session_fields_fixed example_env (example_state [])).
Defined.


(** ** What the computations leave alone *)

Section Preservation.

Context {W : Type}.
Variable env : Env W.
Implicit Types s : @State W.

Lemma preserves_ret {X A} (obs : @State W -> X) (a : A) : preserves obs (ret a).
Proof. by intros s. Qed.

Lemma preserves_raise {X A} (obs : @State W -> X) e : preserves obs (@raise W A e).
Proof. by intros s. Qed.

Lemma preserves_lift {X A} (obs : @State W -> X) (r : result A) :
  preserves obs (lift r).
Proof. by intros s. Qed.

Lemma preserves_get_self {X} (obs : @State W -> X) : preserves obs get_self.
Proof. by intros s. Qed.

Lemma preserves_bind {X A B} (obs : @State W -> X) (m : @M W A) (k : A -> @M W B) :
  preserves obs m -> (forall a, preserves obs (k a)) -> preserves obs (bind m k).
Proof.
  intros Hm Hk s. unfold bind. specialize (Hm s).
  destruct (m s) as [[a|e] s1]; simpl in *; [|done].
  by rewrite Hk.
Qed.

Lemma preserves_try_except {X A} (obs : @State W -> X) (body : @M W A) handler :
  preserves obs body -> (forall e, preserves obs (handler e)) ->
  preserves obs (try_except body handler).
Proof.
  intros Hm Hk s. unfold try_except. specialize (Hm s).
  destruct (body s) as [[a|e] s1]; simpl in *; [done|].
  destruct (is_Exception e); [|done]. by rewrite Hk.
Qed.

Lemma stdin_print line : preserves (@stdin W) (print line).
Proof. by intros s. Qed.

Lemma stdin_remote {A} ev (h : W -> result A * W) : preserves (@stdin W) (remote ev h).
Proof. intros s. unfold remote. simpl. by destruct (h (world s)). Qed.

Lemma writes_print line : preserves (@writes W) (print line).
Proof. by intros s. Qed.

Lemma writes_input prompt : preserves (@writes W) (input prompt).
Proof. intros s. unfold input. simpl. by destruct (stdin s). Qed.

Lemma writes_remote {A} ev (h : W -> result A * W) :
  is_write_call ev = false -> preserves (@writes W) (remote ev h).
Proof.
  intros Hev s. unfold remote, writes. simpl. destruct (h (world s)). simpl.
  rewrite filter_app. destruct ev; try discriminate Hev; apply app_nil_r.
Qed.

End Preservation.

Create HintDb keep discriminated.
#[export] Hint Resolve preserves_ret preserves_raise preserves_lift
  preserves_get_self stdin_print stdin_remote writes_print writes_input : keep.
#[export] Hint Extern 1 (preserves writes (remote _ _)) =>
  (apply writes_remote; reflexivity) : keep.

(** Splits a goal of preservation along the computation. *)
Ltac keep :=
  repeat first
    [ solve [auto with keep]
    | apply preserves_bind; [|intros ?]
    | apply preserves_try_except; [|intros ?]
    | match goal with
      | |- preserves _ (if ?b then _ else _) => destruct b
      | |- preserves _ (match ?x with _ => _ end) => destruct x
      end ].

Section Quiet.

Context {W : Type}.
Variable env : Env W.
Implicit Types s : @State W.

Lemma stdin_methods :
  (forall c e h d i a, preserves (@stdin W) (registerEvidence env c e h d i a))
  /\ (forall c e t n a d, preserves (@stdin W) (transferEvidence env c e t n a d))
  /\ (forall c e, preserves (@stdin W) (deleteEvidence env c e))
  /\ (forall c e, preserves (@stdin W) (viewEvidence env c e))
  /\ (forall c e, preserves (@stdin W) (getHistory env c e))
  /\ preserves (@stdin W) (getAllEvidenceIds env)
  /\ (forall path, preserves (@stdin W) (upload_file_to_ipfs env path)).
Proof.
  repeat split; intros;
    unfold registerEvidence, transferEvidence, deleteEvidence, viewEvidence,
      getHistory, getAllEvidenceIds, upload_file_to_ipfs, upload_body, functions,
      function_named, bound_to, get_transaction_count, transact, wait_for_transaction_receipt, call;
    keep.
Qed.

Lemma stdin_print_history records : forall i,
  preserves (@stdin W) (print_history env i records).
Proof. induction records as [|r rest IH]; intros i; simpl; keep. Qed.

Lemma stdin_print_ids ids : preserves (@stdin W) (@print_ids W ids).
Proof. induction ids as [|x rest IH]; simpl; keep. Qed.

Lemma writes_reads :
  preserves (@writes W) (getAccounts env)
  /\ (forall a, preserves (@writes W) (getBalance env a))
  /\ (forall c e, preserves (@writes W) (viewEvidence env c e))
  /\ (forall c e, preserves (@writes W) (getHistory env c e))
  /\ preserves (@writes W) (getPrivateKey env)
  /\ preserves (@writes W) (getAllEvidenceIds env)
  /\ (forall path, preserves (@writes W) (upload_file_to_ipfs env path)).
Proof.
  repeat split; intros;
    unfold getAccounts, getBalance, viewEvidence, getHistory, getPrivateKey,
      getAllEvidenceIds, upload_file_to_ipfs, upload_body, functions,
      function_named, bound_to, call;
    keep.
Qed.

Lemma writes_print_history records : forall i,
  preserves (@writes W) (print_history env i records).
Proof. induction records as [|r rest IH]; intros i; simpl; keep. Qed.

Lemma writes_print_ids ids : preserves (@writes W) (@print_ids W ids).
Proof. induction ids as [|x rest IH]; simpl; keep. Qed.

End Quiet.

(** ** Reads, prompts and the end of input *)

Section Prompts.

Context {W : Type}.
Variable env : Env W.
Implicit Types s : @State W.

(** Takes the answers to the prompts of an option from the input. *)
Ltac answers E :=
  repeat (erewrite bind_input; [|first [exact E | reflexivity]]);
  repeat rewrite answered_again; simpl app.

(** Rewrites with the preservation of the computation under [obs]. *)
Ltac kept obs :=
  match goal with
  | |- obs (snd (?m ?st)) = _ =>
      let P := fresh "P" in
      assert (preserves obs m) as P by keep; rewrite (P st); clear P
  end.

(** X1: the methods that only read (getAccounts, getBalance,
    viewEvidence, getHistory, getPrivateKey, getAllEvidenceIds), the
    upload, and options 4, 5 and 6 of the console never ask for a
    transaction count, never submit a transaction and never wait for a
    receipt: the calls of that kind in the trace are the ones that were
    there before. *)
Theorem reads_never_send s :
  writes (snd (getAccounts env s)) = writes s
  /\ (forall a, writes (snd (getBalance env a s)) = writes s)
  /\ (forall c e, writes (snd (viewEvidence env c e s)) = writes s)
  /\ (forall c e, writes (snd (getHistory env c e s)) = writes s)
  /\ writes (snd (getPrivateKey env s)) = writes s
  /\ writes (snd (getAllEvidenceIds env s)) = writes s
  /\ (forall path, writes (snd (upload_file_to_ipfs env path s)) = writes s)
  /\ writes (snd (option_4 env s)) = writes s
  /\ writes (snd (option_5 env s)) = writes s
  /\ writes (snd (option_6 env s)) = writes s.
Proof.
  destruct (writes_reads env) as (H1 & H2 & H3 & H4 & H5 & H6 & H7).
  pose proof (writes_print_history env) as H8.
  pose proof (@writes_print_ids W) as H9.
  repeat split; intros; try (by rewrite ?H1, ?H2, ?H3, ?H4, ?H5, ?H6, ?H7).
  - unfold option_4. kept (@writes W). done.
  - unfold option_5. kept (@writes W). done.
  - unfold option_6. kept (@writes W). done.
Qed.


(** X3: when the input ends before all the prompts of an option are
    answered, the option ends with EOFError and has made no remote call:
    the answers are all read before the upload or the ledger is called. *)
Theorem short_input_ends_option_before_any_call s :
  ((length (stdin s) < 5)%nat ->
   (exists s', option_1 env s = (Raise EOFError, s')
               /\ trace s' = trace s /\ world s' = world s /\ stdin s' = [])
   /\ (exists s', option_2 env s = (Raise EOFError, s')
                  /\ trace s' = trace s /\ world s' = world s /\ stdin s' = []))
  /\ ((length (stdin s) < 2)%nat ->
      (exists s', option_3 env s = (Raise EOFError, s')
                  /\ trace s' = trace s /\ world s' = world s /\ stdin s' = [])
      /\ (exists s', option_4 env s = (Raise EOFError, s')
                     /\ trace s' = trace s /\ world s' = world s /\ stdin s' = [])
      /\ (exists s', option_5 env s = (Raise EOFError, s')
                     /\ trace s' = trace s /\ world s' = world s /\ stdin s' = [])).
Proof.
  split; intros H.
  - destruct (stdin s) as [|a [|b [|c [|d [|e l]]]]] eqn:E; simpl in H; try lia;
      (split;
       [unfold option_1|unfold option_2]; unfold bind, input; simpl; rewrite E;
       simpl; eexists; (split; [reflexivity|done])).
  - destruct (stdin s) as [|a [|b l]] eqn:E; simpl in H; try lia;
      (split; [|split];
       [unfold option_3|unfold option_4|unfold option_5]; unfold bind, input;
       simpl; rewrite E; simpl; eexists; (split; [reflexivity|done])).
Qed.

Lemma iteration_unfold s l rest :
  stdin s = l :: rest ->
  iteration env s = dispatch env (strip l) (answered menu_prompt rest s).
Proof.
  intros E. unfold iteration, print_menu, bind, print, input. simpl. by rewrite E.
Qed.

Lemma iteration_at_end s :
  stdin s = [] -> iteration env s = (Raise EOFError, answered menu_prompt [] s).
Proof.
  destruct s as [w session t lines out]. simpl. intros ->. reflexivity.
Qed.

Lemma main_loop_turn fuel s :
  main_loop env (S fuel) s
  = bind (iteration env)
      (fun stop => if stop then ret (Some tt) else main_loop env fuel) s.
Proof. reflexivity. Qed.

(** X4: with the input at its end when the menu is shown, the loop shows
    the menu and the prompt, makes no call and ends with EOFError; a
    process started with no input at all ends that way, uncaught, with
    exit code 1. *)
Theorem no_input_ends_with_EOFError fuel :
  (forall s, stdin s = [] ->
     main_loop env (S fuel) s = (Raise EOFError, answered menu_prompt [] s))
  /\ (forall w session,
        load_session env = Ok session ->
        main_cli env (S fuel) w []
        = (Uncaught EOFError, Some (answered menu_prompt [] (mkState w session [] [] [])))
        /\ exit_code (fst (main_cli env (S fuel) w [])) = Some 1).
Proof.
  assert (forall s, stdin s = [] ->
     main_loop env (S fuel) s = (Raise EOFError, answered menu_prompt [] s)) as H.
  { intros s E. rewrite main_loop_turn. unfold bind.
    by rewrite (iteration_at_end s E). }
  split; [exact H|]. intros w session Hl. unfold main_cli. rewrite Hl.
  rewrite H by reflexivity. split; reflexivity.
Qed.

End Prompts.

(** ** The start of the process *)

Section Start.

Context {W : Type}.
Variable env : Env W.

Lemma subscript_str_Ok v k x :
  subscript_str v k = Ok x -> exists d, v = VDict d /\ assoc_get k d = Some x.
Proof.
  destruct v; try discriminate. simpl.
  destruct (assoc_get k d) eqn:E; [|discriminate].
  intros H. inversion H; subst. by exists d.
Qed.

(** X5: a session is only ever built from an addr_list.json that is an
    object with the four entries HttpProvider, EvidenceChainOfCustody,
    DemoUser and AnotherUser (the last one is read and not used): the
    endpoint is the first, the contract address the checksummed second,
    the account the checksummed third, and the interface comes from the
    fixed path of the build file. *)
Theorem load_session_reads_four_entries self :
  load_session env = Ok self ->
  exists d a u,
    json_load_file env "addr_list.json" = Ok (VDict d)
    /\ assoc_get "HttpProvider" d = Some (web3 self)
    /\ assoc_get "EvidenceChainOfCustody" d = Some a
    /\ toChecksumAddress env a = Ok (contract_address self)
    /\ assoc_get "DemoUser" d = Some u
    /\ toChecksumAddress env u = Ok (account self)
    /\ is_Some (assoc_get "AnotherUser" d)
    /\ json_load_file env "../build/contracts/EvidenceChainOfCustody.json"
       = Ok (contract_config self)
    /\ address (contract self) = contract_address self.
Proof.
  unfold load_session, rbind. intros H.
  destruct (json_load_file env "addr_list.json") as [config|] eqn:Ec; [|discriminate].
  destruct (subscript_str config "HttpProvider") as [p|] eqn:E1; [|discriminate].
  destruct (subscript_str config "EvidenceChainOfCustody") as [a|] eqn:E2;
    [|discriminate].
  destruct (subscript_str config "DemoUser") as [u|] eqn:E3; [|discriminate].
  destruct (subscript_str config "AnotherUser") as [alt|] eqn:E4; [|discriminate].
  apply subscript_str_Ok in E1 as (d & -> & E1).
  apply subscript_str_Ok in E2 as (d2 & Hd2 & E2). inversion Hd2; subst d2.
  apply subscript_str_Ok in E3 as (d3 & Hd3 & E3). inversion Hd3; subst d3.
  apply subscript_str_Ok in E4 as (d4 & Hd4 & E4). inversion Hd4; subst d4.
  apply __init___fields in H as (abi_ & Hw & Ha & Hj & Hu & _ & Hc).
  exists d, a, u. rewrite Hw, Hc.
  split; [done|]. split; [done|]. split; [done|]. split; [done|].
  split; [done|]. split; [done|]. split; [by exists alt|]. split; done.
Qed.

(** X6: an addr_list.json without the entry AnotherUser ends the process
    at its start with an uncaught KeyError, exit code 1, although the
    entry is never used: this happens before the menu is shown, before
    any input is read and before any call is made, whatever the other
    entries are. *)
Theorem missing_entry_ends_process_at_start d p a u fuel w lines :
  json_load_file env "addr_list.json" = Ok (VDict d) ->
  assoc_get "HttpProvider" d = Some p ->
  assoc_get "EvidenceChainOfCustody" d = Some a ->
  assoc_get "DemoUser" d = Some u ->
  assoc_get "AnotherUser" d = None ->
  main_cli env fuel w lines = (Uncaught (Exc "KeyError" "AnotherUser"), None)
  /\ exit_code (fst (main_cli env fuel w lines)) = Some 1.
Proof.
  intros Hc H1 H2 H3 H4.
  assert (load_session env = Raise (Exc "KeyError" "AnotherUser")) as Hl.
  { unfold load_session, rbind. rewrite Hc. simpl. by rewrite H1, H2, H3, H4. }
  unfold main_cli. by rewrite Hl.
Qed.

(** X18: the constructor looks the interface up under the key abi only
    after both addresses were validated and the build file was read: a
    build file that is an object without that key makes it fail with
    KeyError "abi", and no session object is built; a rejected account
    address is reported first, whatever the build file holds. *)
Theorem __init___needs_abi http addr cfg acct a d :
  toChecksumAddress env addr = Ok a ->
  json_load_file env cfg = Ok (VDict d) ->
  (forall u,
     toChecksumAddress env acct = Ok u ->
     assoc_get "abi" d = None ->
     __init__ env http addr cfg acct = Raise (Exc "KeyError" "abi"))
  /\ (forall exn,
        toChecksumAddress env acct = Raise exn ->
        __init__ env http addr cfg acct = Raise exn).
Proof.
  intros Ha Hc. split.
  - intros u Hu Hk. unfold __init__, rbind. rewrite Ha, Hc, Hu. simpl. by rewrite Hk.
  - intros exn Hu. unfold __init__, rbind. by rewrite Ha, Hc, Hu.
Qed.

End Start.

(** ** More on the mutating methods *)

Section Submissions.

Context {W : Type}.
Variable env : Env W.
Implicit Types s : @State W.

Lemma submission_size s f r added w :
  submission env s f r added w ->
  (length (omap submitted_nonce added) <= 1)%nat /\ (length added <= 3)%nat.
Proof. destruct 1; simpl; lia. Qed.

Lemma fresh_nonce_size s run :
  sends_with_fresh_nonce env s run ->
  exists added,
    trace (snd run) = trace s ++ added
    /\ (length (omap submitted_nonce added) <= 1)%nat /\ (length added <= 3)%nat.
Proof.
  intros [(e & ->)|(f & added & w & Hsub & ->)].
  - exists []. simpl. rewrite app_nil_r. repeat split; lia.
  - exists added. split; [done|]. by eapply submission_size.
Qed.

(** X7: one call of registerEvidence, transferEvidence or deleteEvidence
    submits at most one transaction and makes at most three remote calls;
    nothing is sent a second time, whatever fails. *)
Theorem one_submission_per_call s :
  (forall c e h d i a,
     exists added,
       trace (snd (registerEvidence env c e h d i a s)) = trace s ++ added
       /\ (length (omap submitted_nonce added) <= 1)%nat
       /\ (length added <= 3)%nat)
  /\ (forall c e t n a d,
        exists added,
          trace (snd (transferEvidence env c e t n a d s)) = trace s ++ added
          /\ (length (omap submitted_nonce added) <= 1)%nat
          /\ (length added <= 3)%nat)
  /\ (forall c e,
        exists added,
          trace (snd (deleteEvidence env c e s)) = trace s ++ added
          /\ (length (omap submitted_nonce added) <= 1)%nat
          /\ (length added <= 3)%nat).
Proof.
  split; [|split]; intros; apply fresh_nonce_size.
  - apply registerEvidence_runs.
  - apply transferEvidence_runs.
  - apply deleteEvidence_runs.
Qed.

Lemma ending_wait_raises s f nonce w tx w' exn w'' :
  eth_get_transaction_count env (web3 (coc s)) (account (coc s)) (world s)
    = (Ok nonce, w) ->
  eth_transact env (web3 (coc s)) (contract (coc s)) f
    (mkTxParams (account (coc s)) nonce) w = (Ok tx, w') ->
  eth_wait_for_transaction_receipt env (web3 (coc s)) tx w' = (Raise exn, w'') ->
  ending env s f
  = (Raise exn,
     after s [EvGetTransactionCount (account (coc s));
              EvTransact (contract (coc s)) f (mkTxParams (account (coc s)) nonce);
              EvWaitReceipt tx] w'').
Proof.
  intros H1 H2 H3.
  unfold ending, bind, get_transaction_count, transact,
    wait_for_transaction_receipt, remote. simpl.
  rewrite H1. simpl. rewrite H2. simpl. rewrite H3.
  unfold after, set_world, log. simpl. by repeat rewrite <- app_assoc.
Qed.

Lemma ending_returns s f nonce w tx w' rc w'' :
  eth_get_transaction_count env (web3 (coc s)) (account (coc s)) (world s)
    = (Ok nonce, w) ->
  eth_transact env (web3 (coc s)) (contract (coc s)) f
    (mkTxParams (account (coc s)) nonce) w = (Ok tx, w') ->
  eth_wait_for_transaction_receipt env (web3 (coc s)) tx w' = (Ok rc, w'') ->
  ending env s f
  = (Ok rc,
     after s [EvGetTransactionCount (account (coc s));
              EvTransact (contract (coc s)) f (mkTxParams (account (coc s)) nonce);
              EvWaitReceipt tx] w'').
Proof.
  intros H1 H2 H3.
  unfold ending, bind, get_transaction_count, transact,
    wait_for_transaction_receipt, remote. simpl.
  rewrite H1. simpl. rewrite H2. simpl. rewrite H3.
  unfold after, set_world, log. simpl. by repeat rewrite <- app_assoc.
Qed.

(** X8: when the transaction was accepted by the node and the wait for
    its receipt raises, the method raises that exception although the
    transaction is submitted: the submission is in the trace and the
    world is the one the node left after accepting it.  An error from a
    mutating method does not mean that nothing was sent. *)
Theorem wait_failure_leaves_transaction_submitted s f nonce w tx w' exn w'' :
  function_error env (contract (coc s)) f = None ->
  eth_get_transaction_count env (web3 (coc s)) (account (coc s)) (world s)
    = (Ok nonce, w) ->
  eth_transact env (web3 (coc s)) (contract (coc s)) f
    (mkTxParams (account (coc s)) nonce) w = (Ok tx, w') ->
  eth_wait_for_transaction_receipt env (web3 (coc s)) tx w' = (Raise exn, w'') ->
  let left :=
    (Raise exn,
     after s [EvGetTransactionCount (account (coc s));
              EvTransact (contract (coc s)) f (mkTxParams (account (coc s)) nonce);
              EvWaitReceipt tx] w'') in
  (forall c e h d i a,
     f = mkContractFunction "registerEvidence"
           [c; e; h; d; i; default (VStr "collected") a] ->
     registerEvidence env c e h d i a s = left)
  /\ (forall c e t to n a d,
        toChecksumAddress env t = Ok to ->
        f = mkContractFunction "transferEvidence"
              [c; e; VStr to; n; default (VStr "transferred") a; default (VStr "") d] ->
        transferEvidence env c e t n a d s = left)
  /\ (forall c e,
        f = mkContractFunction "deleteEvidence" [c; e] ->
        deleteEvidence env c e s = left).
Proof.
  intros Hf H1 H2 H3 left. pose proof (ending_wait_raises _ _ _ _ _ _ _ _ H1 H2 H3) as He.
  split; [|split].
  - intros c e h d i a ->. rewrite registerEvidence_unfold. simpl.
    by rewrite Hf.
  - intros c e t to n a d Ht ->. rewrite transferEvidence_unfold.
    unfold function_error in Hf. simpl fn_name in Hf.
    destruct (lookup_error env _ _); [discriminate|]. rewrite Ht. cbv zeta.
    by rewrite Hf.
  - intros c e ->. rewrite deleteEvidence_unfold. simpl. by rewrite Hf.
Qed.

(** X9: a call of transferEvidence that returns has validated the
    recipient address, has submitted the contract function
    transferEvidence with the checksummed address in place of the given
    one (action "transferred" and description "" when not given) from the
    session account, has waited for the receipt and returns it. *)
Theorem transferEvidence_returns_receipt s c e t n a d rc s' :
  transferEvidence env c e t n a d s = (Ok rc, s') ->
  exists to nonce w tx w' w'',
    toChecksumAddress env t = Ok to
    /\ eth_get_transaction_count env (web3 (coc s)) (account (coc s)) (world s)
       = (Ok nonce, w)
    /\ eth_transact env (web3 (coc s)) (contract (coc s))
         (mkContractFunction "transferEvidence"
            [c; e; VStr to; n; default (VStr "transferred") a; default (VStr "") d])
         (mkTxParams (account (coc s)) nonce) w = (Ok tx, w')
    /\ eth_wait_for_transaction_receipt env (web3 (coc s)) tx w' = (Ok rc, w'')
    /\ s' = after s
              [EvGetTransactionCount (account (coc s));
               EvTransact (contract (coc s))
                 (mkContractFunction "transferEvidence"
                    [c; e; VStr to; n; default (VStr "transferred") a;
                     default (VStr "") d])
                 (mkTxParams (account (coc s)) nonce);
               EvWaitReceipt tx] w''.
Proof.
  intros H. rewrite transferEvidence_unfold in H.
  destruct (lookup_error env _ _); [discriminate|].
  destruct (toChecksumAddress env t) as [to|]; [|discriminate]. simpl in H.
  destruct (binding_error env _ _); [discriminate|].
  match type of H with ending env s ?f = _ =>
    destruct (nonce_transact_wait env s f) as (added & w & Hsub & Hs);
    fold (ending env s f) in Hsub, Hs end.
  rewrite H in Hsub, Hs. simpl in Hsub, Hs.
  inversion Hsub; subst. exists to. eauto 10.
Qed.

(** X10: a call of deleteEvidence that returns has submitted the
    contract function deleteEvidence with the two identifiers from the
    session account, has waited for the receipt and returns it. *)
Theorem deleteEvidence_returns_receipt s c e rc s' :
  deleteEvidence env c e s = (Ok rc, s') ->
  exists nonce w tx w' w'',
    eth_get_transaction_count env (web3 (coc s)) (account (coc s)) (world s)
      = (Ok nonce, w)
    /\ eth_transact env (web3 (coc s)) (contract (coc s))
         (mkContractFunction "deleteEvidence" [c; e])
         (mkTxParams (account (coc s)) nonce) w = (Ok tx, w')
    /\ eth_wait_for_transaction_receipt env (web3 (coc s)) tx w' = (Ok rc, w'')
    /\ s' = after s
              [EvGetTransactionCount (account (coc s));
               EvTransact (contract (coc s))
                 (mkContractFunction "deleteEvidence" [c; e])
                 (mkTxParams (account (coc s)) nonce);
               EvWaitReceipt tx] w''.
Proof.
  intros H. rewrite deleteEvidence_unfold in H. simpl in H.
  destruct (function_error env _ _); [discriminate|].
  match type of H with ending env s ?f = _ =>
    destruct (nonce_transact_wait env s f) as (added & w & Hsub & Hs);
    fold (ending env s f) in Hsub, Hs end.
  rewrite H in Hsub, Hs. simpl in Hsub, Hs.
  inversion Hsub; subst. eauto 10.
Qed.

End Submissions.

(** ** The upload and the registration it feeds *)

Section Uploads.

Context {W : Type}.
Variable env : Env W.
Implicit Types s : @State W.

Lemma subscript_str_raises v k exn :
  subscript_str v k = Raise exn -> is_Exception exn = true.
Proof.
  destruct v; simpl; try (intros H; by inversion H).
  destruct (assoc_get k d); intros H; by inversion H.
Qed.

Lemma upload_answer path s u w res w' :
  ipfs_connect env (world s) = (Ok u, w) ->
  ipfs_add env path w = (Ok res, w') ->
  upload_file_to_ipfs env path s
  = match subscript_str res "Hash" with
    | Ok v =>
        (Ok v,
         emit [Lit "File uploaded to IPFS with hash: "; Fmt v]
           (after s [EvIpfsConnect; EvIpfsAdd path] w'))
    | Raise exn =>
        (Ok VNone,
         emit [Lit "IPFS upload error: "; FmtExn exn]
           (after s [EvIpfsConnect; EvIpfsAdd path] w'))
    end.
Proof.
  intros H1 H2.
  unfold upload_file_to_ipfs, try_except, upload_body, bind, remote, lift, print.
  simpl. rewrite H1. simpl. rewrite H2. simpl.
  destruct (subscript_str res "Hash") as [v|exn] eqn:E; simpl.
  - unfold after, emit, set_world, log. simpl. by rewrite <- app_assoc.
  - rewrite (subscript_str_raises _ _ _ E).
    unfold after, emit, set_world, log, print, bind, ret. simpl.
    by rewrite <- app_assoc.
Qed.

(** X11: when the daemon was reached and answered the add, the upload
    returns exactly the value the answer holds under the key Hash, after
    printing it; when the answer has no such key or is not an object (a
    list of entries, as for a directory), the upload prints the lookup
    error and returns None.  Both calls to the daemon were made in either
    case, and nothing else. *)
Theorem upload_returns_hash_of_answer path s u w res w' :
  ipfs_connect env (world s) = (Ok u, w) ->
  ipfs_add env path w = (Ok res, w') ->
  upload_file_to_ipfs env path s
  = match subscript_str res "Hash" with
    | Ok v =>
        (Ok v,
         emit [Lit "File uploaded to IPFS with hash: "; Fmt v]
           (after s [EvIpfsConnect; EvIpfsAdd path] w'))
    | Raise exn =>
        (Ok VNone,
         emit [Lit "IPFS upload error: "; FmtExn exn]
           (after s [EvIpfsConnect; EvIpfsAdd path] w'))
    end.
Proof. apply upload_answer. Qed.

(** X12: what is raised and is not an Exception (an interrupt) is caught
    neither by the upload nor by the console: from the body of the upload
    it leaves upload_file_to_ipfs with nothing printed, and from the
    upload of option 1 or the ledger call of option 3 it ends the loop. *)
Theorem interrupt_is_not_caught fuel :
  (forall path s exn s1,
     upload_body env path s = (Raise exn, s1) ->
     is_Exception exn = false ->
     upload_file_to_ipfs env path s = (Raise exn, s1))
  /\ (forall s l c e h d p rest exn s1,
        stdin s = l :: c :: e :: h :: d :: p :: rest ->
        strip l = "1" ->
        upload_body env p
          (answered prompts_1 rest
             (answered menu_prompt (c :: e :: h :: d :: p :: rest) s))
          = (Raise exn, s1) ->
        is_Exception exn = false ->
        main_loop env (S fuel) s = (Raise exn, s1))
  /\ (forall s l c e rest exn s1,
        stdin s = l :: c :: e :: rest ->
        strip l = "3" ->
        deleteEvidence env (VStr c) (VStr e)
          (answered prompts_3 rest (answered menu_prompt (c :: e :: rest) s))
          = (Raise exn, s1) ->
        is_Exception exn = false ->
        main_loop env (S fuel) s = (Raise exn, s1)).
Proof.
  split; [|split].
  - intros path s exn s1 H Hx. unfold upload_file_to_ipfs, try_except.
    by rewrite H, Hx.
  - intros s l c e h d p rest exn s1 E Hs H Hx.
    rewrite main_loop_turn. unfold bind at 1.
    rewrite (iteration_unfold env _ _ _ E), Hs.
    change (dispatch env "1") with (bind (option_1 env) (fun _ => @ret W bool false)).
    unfold bind at 1.
    erewrite option_1_unfold; [|reflexivity].
    unfold bind at 1. unfold upload_file_to_ipfs, try_except.
    by rewrite H, Hx.
  - intros s l c e rest exn s1 E Hs H Hx.
    rewrite main_loop_turn. unfold bind at 1.
    rewrite (iteration_unfold env _ _ _ E), Hs.
    change (dispatch env "3") with (bind (option_3 env) (fun _ => @ret W bool false)).
    unfold bind at 1. unfold option_3.
    repeat (erewrite bind_input; [|reflexivity]). rewrite answered_again.
    unfold prompts_3 in H. simpl app.
    unfold try_except. unfold bind at 1. by rewrite H, Hx.
Qed.

(** X13: option 1 from end to end when everything succeeds: the five
    answers are read, the file is uploaded, and registerEvidence is
    submitted from the session account with the case identifier, the
    evidence identifier, the holder name and the description exactly as
    typed (they are not stripped), the hash the upload returned and the
    action "collected"; the remote calls are the two of the upload and
    the three of the submission, in this order, and the hash of the
    receipt is printed. *)
Theorem option_1_registers_what_was_typed
    s c e h d p rest u w1 res w2 v nonce w3 tx w4 rc w5 :
  stdin s = c :: e :: h :: d :: p :: rest ->
  ipfs_connect env (world s) = (Ok u, w1) ->
  ipfs_add env p w1 = (Ok res, w2) ->
  subscript_str res "Hash" = Ok v ->
  is_None v = false ->
  let f := mkContractFunction "registerEvidence"
             [VStr c; VStr e; VStr h; VStr d; v; VStr "collected"] in
  function_error env (contract (coc s)) f = None ->
  eth_get_transaction_count env (web3 (coc s)) (account (coc s)) w2 = (Ok nonce, w3) ->
  eth_transact env (web3 (coc s)) (contract (coc s)) f
    (mkTxParams (account (coc s)) nonce) w3 = (Ok tx, w4) ->
  eth_wait_for_transaction_receipt env (web3 (coc s)) tx w4 = (Ok rc, w5) ->
  option_1 env s
  = (Ok tt,
     emit [Lit "Evidence registered with Tx Hash: "; Lit (transactionHash rc)]
       (after
          (emit [Lit "File uploaded to IPFS with hash: "; Fmt v]
             (answered prompts_1 rest s))
          [EvIpfsConnect; EvIpfsAdd p;
           EvGetTransactionCount (account (coc s));
           EvTransact (contract (coc s)) f (mkTxParams (account (coc s)) nonce);
           EvWaitReceipt tx] w5)).
Proof.
  intros E H1 H2 Hh Hn f Hf H3 H4 H5.
  rewrite (option_1_unfold _ _ _ _ _ _ _ _ E). unfold bind at 1.
  rewrite (upload_answer p (answered prompts_1 rest s) u w1 res w2 H1 H2), Hh.
  unfold register_after_upload. rewrite Hn.
  unfold try_except. unfold bind at 1. rewrite registerEvidence_unfold.
  cbv zeta. change (default (VStr "collected") (Some (VStr "collected")))
    with (VStr "collected"). fold f.
  set (s2 := emit [Lit "File uploaded to IPFS with hash: "; Fmt v]
               (after (answered prompts_1 rest s) [EvIpfsConnect; EvIpfsAdd p] w2)).
  change (function_error env (contract (coc s2)) f)
    with (function_error env (contract (coc s)) f). rewrite Hf.
  rewrite (ending_returns env s2 f nonce w3 tx w4 rc w5 H3 H4 H5).
  unfold print, s2, after, emit, answered. cbn [trace world coc stdin stdout].
  by repeat rewrite <- app_assoc.
Qed.

(** X14: getBalance with an address that validation rejects raises the
    validation error and asks the node nothing, the state being as it
    was; and passing None explicitly is the same as passing no address. *)
Theorem getBalance_rejects_before_asking s :
  (forall a exn,
     is_None a = false ->
     toChecksumAddress env a = Raise exn ->
     getBalance env (Some a) s = (Raise exn, s))
  /\ getBalance env (Some VNone) s = getBalance env None s.
Proof.
  split; [|done].
  intros a exn Ha H. unfold getBalance, bind, get_self, lift. simpl.
  by rewrite Ha, H.
Qed.

End Uploads.

(** ** What options 4, 5 and 6 print *)

Section Display.

Context {W : Type}.
Variable env : Env W.
Implicit Types s : @State W.

Ltac answers E :=
  repeat (erewrite bind_input; [|first [exact E | reflexivity]]);
  repeat rewrite answered_again; simpl app.

Lemma emit_all_app lines1 lines2 s :
  emit_all (lines1 ++ lines2) s = emit_all lines2 (emit_all lines1 s).
Proof. unfold emit_all. apply fold_left_app. Qed.

(** X15: option 4 prints the fields of the sequence viewEvidence
    returned in order, one line each for the first five and Yes or No for
    the truth of the sixth, and ignores any further field; when the
    sequence has fewer than six fields it prints the lines of the fields
    that are there and then reports the index error, and returns all the
    same. *)
Theorem option_4_prints_the_fields s c e rest fields s1 :
  stdin s = c :: e :: rest ->
  viewEvidence env (VStr c) (VStr e) (answered prompts_3 rest s)
    = (Ok (VList fields), s1) ->
  option_4 env s
  = (Ok tt,
     if (6 <=? length fields)%nat then emit_all (view_lines fields) s1
     else emit [Lit "Error viewing evidence: ";
                FmtExn (Exc "IndexError" "list index out of range")]
            (emit_all (view_lines fields) s1)).
Proof.
  intros E H. unfold option_4. answers E. unfold prompts_3 in H.
  unfold try_except. unfold bind at 1. rewrite H.
  destruct fields as [|e0 [|e1 [|e2 [|e3 [|e4 [|e5 more]]]]]]; reflexivity.
Qed.

Lemma entry_lines_Some i record lines :
  entry_lines env i record = Some lines ->
  exists r0 r1 r2 r3 r4 more timestamp,
    record = VList (r0 :: r1 :: r2 :: r3 :: r4 :: more)
    /\ format_timestamp env r4 = Ok timestamp
    /\ lines = [[Lit (nl +:+ "Entry #"); Fmt (VInt (Z.of_nat (i + 1))); Lit ":"];
                [Lit "  Holder Address: "; Fmt r0];
                [Lit "  Holder Name: "; Fmt r1];
                [Lit "  Action: "; Fmt r2];
                [Lit "  Description: "; Fmt r3];
                [Lit "  Timestamp: "; Lit timestamp]].
Proof.
  unfold entry_lines.
  destruct record as [| | | |[|r0 [|r1 [|r2 [|r3 [|r4 more]]]]]|]; try discriminate.
  destruct (format_timestamp env r4) as [timestamp|] eqn:Et; [|discriminate].
  intros H. inversion H. eauto 10.
Qed.

Lemma print_history_lines records : forall i lines s,
  history_lines env i records = Some lines ->
  print_history env i records s = (Ok tt, emit_all lines s)
  /\ length lines = (6 * length records)%nat.
Proof.
  induction records as [|record rest IH]; intros i lines s H; simpl in H.
  - inversion H. done.
  - destruct (entry_lines env i record) as [first|] eqn:E1; [|discriminate].
    destruct (history_lines env (S i) rest) as [others|] eqn:E2; [|discriminate].
    inversion H; subst lines.
    apply entry_lines_Some in E1
      as (r0 & r1 & r2 & r3 & r4 & more & timestamp & -> & Et & ->).
    simpl print_history. unfold bind, lift, print. simpl. rewrite Et. simpl.
    destruct (IH (S i) others
                (emit_all
                   [[Lit (nl +:+ "Entry #"); Fmt (VInt (Z.of_nat (i + 1))); Lit ":"];
                    [Lit "  Holder Address: "; Fmt r0];
                    [Lit "  Holder Name: "; Fmt r1];
                    [Lit "  Action: "; Fmt r2];
                    [Lit "  Description: "; Fmt r3];
                    [Lit "  Timestamp: "; Lit timestamp]] s) E2) as [Hp Hl].
    split.
    + exact Hp.
    + simpl. rewrite Hl. lia.
Qed.

Lemma print_history_stops before : forall i lines s fields after_,
  history_lines env i before = Some lines ->
  (length fields < 5)%nat ->
  print_history env i (before ++ VList fields :: after_) s
  = (Raise (Exc "IndexError" "list index out of range"), emit_all lines s).
Proof.
  induction before as [|record rest IH]; intros i lines s fields after_ H Hlen;
    simpl in H.
  - inversion H. simpl. unfold bind, lift.
    by destruct fields as [|r0 [|r1 [|r2 [|r3 [|r4 more]]]]]; simpl in *; try lia.
  - destruct (entry_lines env i record) as [first|] eqn:E1; [|discriminate].
    destruct (history_lines env (S i) rest) as [others|] eqn:E2; [|discriminate].
    inversion H; subst lines.
    apply entry_lines_Some in E1
      as (r0 & r1 & r2 & r3 & r4 & more & timestamp & -> & Et & ->).
    simpl app. simpl print_history. unfold bind at 1, lift. simpl.
    unfold bind at 1. rewrite Et. unfold bind, print. simpl.
    by apply IH.
Qed.

(** X16: option 5 prints "No history found." for an empty history; for
    a history whose entries all have five fields and a time that formats,
    it prints six lines per entry, in order, numbered from 1; and when an
    entry has fewer than five fields, the entries before it are printed
    in full, none of the lines of that entry is, and the index error is
    reported. *)
Theorem option_5_prints_the_entries s c e rest records s1 :
  stdin s = c :: e :: rest ->
  getHistory env (VStr c) (VStr e) (answered prompts_3 rest s)
    = (Ok (VList records), s1) ->
  (records = [] -> option_5 env s = (Ok tt, emit [Lit "No history found."] s1))
  /\ (forall lines,
        records <> [] ->
        history_lines env 0 records = Some lines ->
        option_5 env s = (Ok tt, emit_all lines s1)
        /\ length lines = (6 * length records)%nat)
  /\ (forall before fields after_ lines,
        records = before ++ VList fields :: after_ ->
        history_lines env 0 before = Some lines ->
        (length fields < 5)%nat ->
        option_5 env s
        = (Ok tt,
           emit [Lit "Error fetching history: ";
                 FmtExn (Exc "IndexError" "list index out of range")]
             (emit_all lines s1))).
Proof.
  intros E H.
  assert (option_5 env s
          = try_except
              (bind (getHistory env (VStr c) (VStr e)) (fun history =>
               bind (lift (py_len history)) (fun n =>
               if (n =? 0)%nat then print [Lit "No history found."]
               else bind (lift (py_iter history)) (print_history env 0))))
              (fun e => print [Lit "Error fetching history: "; FmtExn e])
              (answered prompts_3 rest s)) as Ho.
  { unfold option_5. answers E. reflexivity. }
  split; [|split].
  - intros ->. rewrite Ho. unfold try_except. unfold bind at 1. rewrite H.
    reflexivity.
  - intros lines Hne Hl. destruct records as [|r records]; [done|].
    destruct (print_history_lines _ _ _ s1 Hl) as [Hp Hlen]. split; [|exact Hlen].
    rewrite Ho. unfold try_except. unfold bind at 1. rewrite H.
    unfold bind, lift. simpl py_len. simpl py_iter. cbv beta match.
    change (S (length records) =? 0)%nat with false. cbv beta match.
    change (py_iter (VList (r :: records))) with (Ok (r :: records)).
    cbv beta match. by rewrite Hp.
  - intros before fields after_ lines -> Hl Hlen.
    rewrite Ho. unfold try_except. unfold bind at 1. rewrite H.
    unfold bind, lift. simpl py_len. simpl py_iter. cbv beta match.
    change (py_iter (VList (before ++ VList fields :: after_)))
      with (Ok (before ++ VList fields :: after_)).
    cbv beta match.
    replace (length (before ++ VList fields :: after_) =? 0)%nat with false
      by (symmetry; apply Nat.eqb_neq; rewrite length_app; simpl; lia).
    by rewrite (print_history_stops _ _ _ s1 _ _ Hl Hlen).
Qed.

Lemma print_ids_lines ids : forall s,
  @print_ids W ids s = (Ok tt, emit_all (id_lines ids) s).
Proof.
  induction ids as [|evid rest IH]; intros s; [done|].
  simpl. unfold bind, print. simpl. by rewrite IH.
Qed.

(** X17: option 6 prints the heading and then one line per identifier of
    the sequence getAllEvidenceIds returned, in the order of the
    sequence; for an empty sequence the heading alone. *)
Theorem option_6_prints_the_identifiers s ids s1 :
  getAllEvidenceIds env s = (Ok (VList ids), s1) ->
  option_6 env s
  = (Ok tt, emit_all (id_lines ids) (emit [Lit (nl +:+ "All evidence IDs:")] s1)).
Proof.
  intros H. unfold option_6, try_except. unfold bind at 1. rewrite H.
  unfold bind, print, lift. simpl. by rewrite print_ids_lines.
Qed.

End Display.

(** ** The further properties at concrete inputs *)


Lemma short_input_ends_option_before_any_call_witness :
  exists s',
    option_3 example_env (example_state ["CASE1"]) = (Raise EOFError, s')
    /\ trace s' = [] /\ world s' = example_world /\ stdin s' = [].
Proof.
  destruct (short_input_ends_option_before_any_call example_env
              (example_state ["CASE1"])) as (_ & H).
  destruct H as (H & _); [simpl; lia|]. exact H.
Defined.

Lemma no_input_ends_with_EOFError_witness :
  load_session example_env = Ok example_session
  /\ fst (main_cli example_env 1 example_world []) = Uncaught EOFError
  /\ exit_code (fst (main_cli example_env 1 example_world [])) = Some 1%Z.
Proof.
  split; [reflexivity|].
  destruct (proj2 (no_input_ends_with_EOFError example_env 0) example_world
              example_session) as [H1 H2]; [reflexivity|].
  split; [by rewrite H1|exact H2].
Defined.

Lemma load_session_reads_four_entries_witness :
  load_session example_env = Ok example_session
  /\ exists d a u,
       json_load_file example_env "addr_list.json" = Ok (VDict d)
       /\ assoc_get "HttpProvider" d = Some (web3 example_session)
       /\ assoc_get "EvidenceChainOfCustody" d = Some a
       /\ toChecksumAddress example_env a = Ok (contract_address example_session)
       /\ assoc_get "DemoUser" d = Some u
       /\ toChecksumAddress example_env u = Ok (account example_session)
       /\ is_Some (assoc_get "AnotherUser" d)
       /\ json_load_file example_env "../build/contracts/EvidenceChainOfCustody.json"
          = Ok (contract_config example_session)
       /\ address (contract example_session) = contract_address example_session.
Proof.
  split; [reflexivity|].
  apply (load_session_reads_four_entries example_env). reflexivity.
Defined.

Lemma missing_entry_ends_process_at_start_witness :
  main_cli three_entries_env 5 example_world ["0"]
  = (Uncaught (Exc "KeyError" "AnotherUser"), None)
  /\ exit_code (fst (main_cli three_entries_env 5 example_world ["0"])) = Some 1%Z.
Proof.
  eapply (missing_entry_ends_process_at_start three_entries_env); reflexivity.
Defined.

Lemma wait_failure_leaves_transaction_submitted_witness :
  fst (registerEvidence stalled_env (VStr "CASE1") (VStr "EVID1") (VStr "Alice")
         (VStr "found at scene") (VStr "bafy123") None (example_state []))
  = Raise (Exc "TimeExhausted" "0x1700000001")
  /\ omap submitted_nonce
       (trace (snd (registerEvidence stalled_env (VStr "CASE1") (VStr "EVID1")
                      (VStr "Alice") (VStr "found at scene") (VStr "bafy123") None
                      (example_state []))))
     = [0%Z].
Proof.
  edestruct (wait_failure_leaves_transaction_submitted stalled_env
               (example_state []) register_case1) as (H & _ & _);
    [reflexivity|reflexivity|reflexivity|reflexivity|].
  rewrite (H (VStr "CASE1") (VStr "EVID1") (VStr "Alice") (VStr "found at scene")
             (VStr "bafy123") None eq_refl).
  split; reflexivity.
Defined.

Lemma transferEvidence_returns_receipt_witness :
  exists to nonce w tx w' w'',
    toChecksumAddress example_env (VStr bob) = Ok to
    /\ eth_get_transaction_count example_env (web3 example_session) alice
         (world (registered_state [])) = (Ok nonce, w)
    /\ eth_transact example_env (web3 example_session) (contract example_session)
         (mkContractFunction "transferEvidence"
            [VStr "CASE1"; VStr "EVID1"; VStr to; VStr "Bob"; VStr "transferred";
             VStr ""])
         (mkTxParams alice nonce) w = (Ok tx, w')
    /\ eth_wait_for_transaction_receipt example_env (web3 example_session) tx w'
       = (Ok (mkReceipt "0x1700000002" 1700000002 1), w'')
    /\ snd (transferEvidence example_env (VStr "CASE1") (VStr "EVID1") (VStr bob)
              (VStr "Bob") None None (registered_state []))
       = after (registered_state [])
           [EvGetTransactionCount alice;
            EvTransact (contract example_session)
              (mkContractFunction "transferEvidence"
                 [VStr "CASE1"; VStr "EVID1"; VStr to; VStr "Bob"; VStr "transferred";
                  VStr ""])
              (mkTxParams alice nonce);
            EvWaitReceipt tx] w''.
Proof.
  apply (transferEvidence_returns_receipt example_env (registered_state [])
           (VStr "CASE1") (VStr "EVID1") (VStr bob) (VStr "Bob") None None).
  vm_compute. reflexivity.
Defined.

Lemma deleteEvidence_returns_receipt_witness :
  exists nonce w tx w' w'',
    eth_get_transaction_count example_env (web3 example_session) alice
      (world (registered_state [])) = (Ok nonce, w)
    /\ eth_transact example_env (web3 example_session) (contract example_session)
         (mkContractFunction "deleteEvidence" [VStr "CASE1"; VStr "EVID1"])
         (mkTxParams alice nonce) w = (Ok tx, w')
    /\ eth_wait_for_transaction_receipt example_env (web3 example_session) tx w'
       = (Ok (mkReceipt "0x1700000002" 1700000002 1), w'')
    /\ snd (deleteEvidence example_env (VStr "CASE1") (VStr "EVID1")
              (registered_state []))
       = after (registered_state [])
           [EvGetTransactionCount alice;
            EvTransact (contract example_session)
              (mkContractFunction "deleteEvidence" [VStr "CASE1"; VStr "EVID1"])
              (mkTxParams alice nonce);
            EvWaitReceipt tx] w''.
Proof.
  apply (deleteEvidence_returns_receipt example_env (registered_state [])
           (VStr "CASE1") (VStr "EVID1")).
  vm_compute. reflexivity.
Defined.

Lemma upload_returns_hash_of_answer_witness :
  upload_file_to_ipfs example_env "photo.jpg" (example_state [])
  = (Ok (VStr "bafy123"),
     emit [Lit "File uploaded to IPFS with hash: "; Fmt (VStr "bafy123")]
       (after (example_state []) [EvIpfsConnect; EvIpfsAdd "photo.jpg"] example_world)).
Proof.
  erewrite (upload_returns_hash_of_answer example_env "photo.jpg" (example_state []));
    cycle 1.
  all: reflexivity.
Defined.

Lemma interrupt_is_not_caught_witness :
  fst (main_loop interrupted_env 1
         (example_state ["1"; "CASE1"; "EVID1"; "Alice"; "found at scene"; "photo.jpg"]))
  = Raise (BaseExc "KeyboardInterrupt").
Proof.
  destruct (interrupt_is_not_caught interrupted_env 0) as (_ & H & _).
  erewrite H; cycle 1.
  all: reflexivity.
Defined.

Lemma option_1_registers_what_was_typed_witness :
  trace (snd (option_1 example_env
                (example_state ["CASE1"; "EVID1"; "Alice"; "found at scene"; "photo.jpg"])))
  = [EvIpfsConnect; EvIpfsAdd "photo.jpg"; EvGetTransactionCount alice;
     EvTransact (contract example_session) register_case1 (mkTxParams alice 0);
     EvWaitReceipt "0x1700000001"].
Proof.
  erewrite (option_1_registers_what_was_typed example_env
              (example_state ["CASE1"; "EVID1"; "Alice"; "found at scene"; "photo.jpg"]));
    cycle 1.
  all: reflexivity.
Defined.

Lemma getBalance_rejects_before_asking_witness :
  getBalance example_env (Some (VStr "nothex")) (example_state [])
  = (Raise (Exc "ValueError" "Unknown format, attempted to normalize"),
     example_state []).
Proof.
  apply (proj1 (getBalance_rejects_before_asking example_env (example_state [])));
    reflexivity.
Defined.

Lemma option_4_prints_the_fields_witness :
  stdout (snd (option_4 example_env (registered_state ["CASE1"; "EVID1"])))
  = [[Lit "Enter case ID: "]; [Lit "Enter evidence ID: "];
     [Lit (nl +:+ "Evidence ID: "); Fmt (VStr "EVID1")];
     [Lit "Current Holder: "; Fmt (VStr alice)];
     [Lit "Holder Name: "; Fmt (VStr "Alice")];
     [Lit "Description: "; Fmt (VStr "found at scene")];
     [Lit "IPFS Hash: "; Fmt (VStr "bafy123")];
     [Lit "Deleted: "; Lit "No"]].
Proof.
  erewrite (option_4_prints_the_fields example_env
              (registered_state ["CASE1"; "EVID1"])); cycle 1.
  all: reflexivity.
Defined.

Lemma option_5_prints_the_entries_witness :
  fst (option_5 example_env (transferred_state ["CASE1"; "EVID1"])) = Ok tt
  /\ length (stdout (snd (option_5 example_env (transferred_state ["CASE1"; "EVID1"]))))
     = 14%nat.
Proof.
  edestruct (option_5_prints_the_entries example_env
               (transferred_state ["CASE1"; "EVID1"])) as (_ & H & _);
    [reflexivity|reflexivity|].
  edestruct H as [Ho _]; [discriminate|reflexivity|].
  rewrite Ho. split; reflexivity.
Defined.

Lemma option_6_prints_the_identifiers_witness :
  stdout (snd (option_6 example_env (registered_state [])))
  = [[Lit (nl +:+ "All evidence IDs:")]; [Lit " - "; Fmt (VStr "EVID1")]].
Proof.
  erewrite (option_6_prints_the_identifiers example_env (registered_state []));
    cycle 1.
  all: reflexivity.
Defined.

Lemma __init___needs_abi_witness :
  __init__ (node_env no_abi_lib) (VStr "http://127.0.0.1:8545") (VStr deployed)
    "build.json" (VStr alice)
  = Raise (Exc "KeyError" "abi").
Proof.
  edestruct (__init___needs_abi (node_env no_abi_lib) (VStr "http://127.0.0.1:8545")
               (VStr deployed) "build.json" (VStr alice)) as [H _];
    [reflexivity|reflexivity|].
  eapply H; reflexivity.
Defined.
